(** * MLOps converter: notebook parsing, dependency analysis, code generation

    A shallow embedding of the converter core
    ([src/converter/notebook_parser.py], [src/converter/dependency_analyzer.py],
    [src/converter/code_generator.py]) together with the properties its
    specification states about it.

    Conventions.  Python [str] values are modelled by [string]; a character
    is a code point below 256, and [str.isspace], [str.lower] and the [\s]
    class of [re] are the Unicode ones restricted to that range.  Python
    sets are [gset string], dictionaries are [gmap]s (or association lists
    where the iteration order of the dictionary is used), exceptions are
    the left summand of an error monad. *)

From Stdlib Require Import Ascii NArith ZArith.
From stdpp Require Import base option list gmap strings pretty.

Set Warnings "-register-all".

(** ** Python text primitives *)

Module PyStr.

Definition nl : ascii := "010"%char.
Definition dquote : ascii := "034"%char.
Definition NL : string := String nl "".
Definition DQ : string := String dquote "".

(** [str.isspace] on one character; also the class [\s] of [re]. *)
Definition isspace (c : ascii) : bool :=
  let n := N_of_ascii c in
  (((9 <=? n) && (n <=? 13)) || ((28 <=? n) && (n <=? 32))
   || (n =? 133) || (n =? 160))%N.

Definition lower_char (c : ascii) : ascii :=
  let n := N_of_ascii c in
  if (((65 <=? n) && (n <=? 90))
      || ((192 <=? n) && (n <=? 222) && negb (n =? 215)))%N
  then ascii_of_N (n + 32) else c.

(** ASCII letters only: [upper_char] and [title] are applied to the
    fixed, ASCII, category names. *)
Definition upper_char (c : ascii) : ascii :=
  let n := N_of_ascii c in
  if ((97 <=? n) && (n <=? 122))%N then ascii_of_N (n - 32) else c.

Definition is_letter (c : ascii) : bool :=
  let n := N_of_ascii c in
  (((65 <=? n) && (n <=? 90)) || ((97 <=? n) && (n <=? 122)))%N.

Fixpoint map_chars (f : ascii → ascii) (s : string) : string :=
  match s with
  | EmptyString => EmptyString
  | String c s' => String (f c) (map_chars f s')
  end.

(** [s.lower()] *)
Definition lower (s : string) : string := map_chars lower_char s.

(** [s.replace(a, b)] for one-character [a] and [b]. *)
Definition replace_char (a b : ascii) (s : string) : string :=
  map_chars (λ c, if Ascii.eqb c a then b else c) s.

Fixpoint title_from (prev_cased : bool) (s : string) : string :=
  match s with
  | EmptyString => EmptyString
  | String c s' =>
      if is_letter c
      then String (if prev_cased then lower_char c else upper_char c)
                  (title_from true s')
      else String c (title_from false s')
  end.

(** [s.title()] *)
Definition title (s : string) : string := title_from false s.

Fixpoint lstrip (s : string) : string :=
  match s with
  | EmptyString => EmptyString
  | String c s' => if isspace c then lstrip s' else s
  end.

Fixpoint rstrip (s : string) : string :=
  match s with
  | EmptyString => EmptyString
  | String c s' =>
      match rstrip s' with
      | EmptyString => if isspace c then EmptyString else String c EmptyString
      | r => String c r
      end
  end.

(** [s.strip()] *)
Definition strip (s : string) : string := rstrip (lstrip s).

(** [not s], the truth value test of a string *)
Definition is_empty (s : string) : bool :=
  match s with EmptyString => true | _ => false end.

(** [needle in hay] *)
Fixpoint contains (needle hay : string) : bool :=
  String.prefix needle hay
  || match hay with
     | EmptyString => false
     | String _ hay' => contains needle hay'
     end.

(** [s.startswith(p)] *)
Definition startswith (p s : string) : bool := String.prefix p s.

(** [s.split(sep)] for a one-character separator: never the empty list. *)
Fixpoint split (sep : ascii) (s : string) : list string :=
  match s with
  | EmptyString => [EmptyString]
  | String c s' =>
      if Ascii.eqb c sep then EmptyString :: split sep s'
      else match split sep s' with
           | h :: t => String c h :: t
           | [] => [String c EmptyString]
           end
  end.

(** [sep.join(parts)] *)
Fixpoint join (sep : string) (parts : list string) : string :=
  match parts with
  | [] => EmptyString
  | [p] => p
  | p :: rest => p +:+ sep +:+ join sep rest
  end.

(** [s.split(sep)[0]] *)
Definition first_field (sep : ascii) (s : string) : string :=
  match split sep s with
  | h :: _ => h
  | [] => EmptyString
  end.

(** [any(p in s for p in patterns)] *)
Definition any_in (patterns : list string) (s : string) : bool :=
  existsb (λ p, contains p s) patterns.

End PyStr.

Import PyStr.

(** ** The fragment of [re] used by the fallback scanner

    Both patterns of [_extract_imports_regex] are sequences of a line
    anchor, literals, greedy repetitions of a character class and one
    capturing group that is itself a greedy repetition.  The matcher
    backtracks the way [re] does: a repetition first takes as many
    characters as it can and gives them back one at a time. *)

Module Re.

Inductive item :=
| BOL                              (* ^ under re.MULTILINE *)
| Lit (s : string)
| Star (cls : ascii → bool)        (* cls*, greedy *)
| Plus (cls : ascii → bool)        (* cls+, greedy *)
| GroupPlus (cls : ascii → bool).  (* (cls+), the capturing group *)

(** [^] matches at the start of the text and right after a newline;
    [prev] is the character before the current position. *)
Definition at_line_start (prev : option ascii) : bool :=
  match prev with
  | None => true
  | Some c => Ascii.eqb c nl
  end.

(** Consume the literal [l]; returns the last character read and the rest. *)
Fixpoint eat (l : string) (prev : option ascii) (s : string)
  : option (option ascii * string) :=
  match l with
  | EmptyString => Some (prev, s)
  | String a l' =>
      match s with
      | String b s' => if Ascii.eqb a b then eat l' (Some b) s' else None
      | EmptyString => None
      end
  end.

(** Greedy repetition with backtracking; the continuation receives the
    characters consumed, the last character read and the rest. *)
Fixpoint greedy {R} (cls : ascii → bool)
    (k : string → option ascii → string → option R)
    (prev : option ascii) (s : string) : option R :=
  match s with
  | String c s' =>
      if cls c then
        match greedy cls (λ taken, k (String c taken)) (Some c) s' with
        | Some r => Some r
        | None => k EmptyString prev s
        end
      else k EmptyString prev s
  | EmptyString => k EmptyString prev s
  end.

Definition nonempty {R} (k : string → option ascii → string → option R)
  : string → option ascii → string → option R :=
  λ taken prev s, if is_empty taken then None else k taken prev s.

(** Match the pattern at the current position: the text of the group and
    the text left after the whole match. *)
Fixpoint match_here (p : list item) (prev : option ascii) (cap : string)
    (s : string) : option (string * string) :=
  match p with
  | [] => Some (cap, s)
  | BOL :: p' => if at_line_start prev then match_here p' prev cap s else None
  | Lit l :: p' =>
      match eat l prev s with
      | Some (prev', s') => match_here p' prev' cap s'
      | None => None
      end
  | Star cls :: p' =>
      greedy cls (λ _ prev' s', match_here p' prev' cap s') prev s
  | Plus cls :: p' =>
      greedy cls (nonempty (λ _ prev' s', match_here p' prev' cap s')) prev s
  | GroupPlus cls :: p' =>
      greedy cls (nonempty (λ taken prev' s', match_here p' prev' taken s')) prev s
  end.

(** [re.findall(p, s, re.MULTILINE)] for a pattern with one group and no
    empty match: the groups of the successive non-overlapping matches,
    scanning left to right.  [skip] counts the characters of the last
    match that still lie ahead. *)
Fixpoint scan (p : list item) (prev : option ascii) (skip : nat) (s : string)
  : list string :=
  let here := match skip with
              | 0 => match_here p prev EmptyString s
              | S _ => None
              end in
  match here with
  | Some (cap, rest) =>
      cap :: match s with
             | String c s' =>
                 scan p (Some c) (String.length s - String.length rest - 1) s'
             | EmptyString => []
             end
  | None =>
      match s with
      | String c s' => scan p (Some c) (pred skip) s'
      | EmptyString => []
      end
  end.

Definition findall (p : list item) (s : string) : list string :=
  scan p None 0 s.

End Re.

(** ** Dependency analyzer ([dependency_analyzer.py]) *)

(** r'^\s*import\s+([^\n#]+)' *)
Definition import_pattern : list Re.item :=
  [Re.BOL; Re.Star isspace; Re.Lit "import"; Re.Plus isspace;
   Re.GroupPlus (λ c, negb (Ascii.eqb c nl) && negb (Ascii.eqb c "#"))].

(** r'^\s*from\s+([^\s\n#]+)\s+import' *)
Definition from_pattern : list Re.item :=
  [Re.BOL; Re.Star isspace; Re.Lit "from"; Re.Plus isspace;
   Re.GroupPlus (λ c, negb (isspace c) && negb (Ascii.eqb c nl)
                      && negb (Ascii.eqb c "#"));
   Re.Plus isspace; Re.Lit "import"].

(** [imports.add(x)] for each [x] of a list, and [imports.update(xs)]. *)
Definition add_all (xs : list string) (imports : gset string) : gset string :=
  foldl (λ acc x, acc ∪ {[ x ]}) imports xs.

Definition _extract_imports_regex (code : string) : gset string :=
  let imports : gset string := ∅ in
  let import_matches := Re.findall import_pattern code in
  let imports :=
    foldl (λ acc m,
             add_all (map (λ lib, first_field "." (strip lib)) (split "," m)) acc)
          imports import_matches in
  let from_matches := Re.findall from_pattern code in
  imports ∪ list_to_set (map (λ lib, first_field "." lib) from_matches).

Definition example_cell : string :=
  "import pandas as pd" +:+ NL +:+
  "from sklearn.linear_model import LinearRegression".

(** ** Data model

    Decoded JSON as the parser receives it.  Free-form values (cell
    metadata, execution outputs) are carried through without being read. *)

Inductive json :=
| JNull
| JBool (b : bool)
| JNum (n : Z)
| JStr (s : string)
| JArr (items : list json)
| JObj (fields : list (string * json)).

(** The [source] field of a raw cell: one string or a list of fragments. *)
Inductive RawSource :=
| SourceStr (s : string)
| SourceList (parts : list string).

(** A raw cell; [None] is an absent key. *)
Record RawCell := {
  raw_cell_type : option string;
  raw_source : option RawSource;
  raw_metadata : option json;
  raw_outputs : option (list json)
}.

(** A parsed cell, the dictionary built by [_extract_cells]. *)
Record Cell := {
  cell_type : string;
  source : string;
  metadata : json;
  outputs : list json;
  category : string
}.

(** ** Exceptions *)

Inductive exception :=
| SyntaxError
| ValueError (msg : string)
| RecursionError.

Definition result (A : Type) : Type := exception + A.

Global Instance result_ret : MRet result := λ A x, inr x.
Global Instance result_bind : MBind result := λ A B f m,
  match m with
  | inl e => inl e
  | inr x => f x
  end.

Global Instance result_fmap : FMap result := λ A B f m,
  match m with
  | inl e => inl e
  | inr x => inr (f x)
  end.

Definition raise {A} (e : exception) : result A := inl e.

(** [try: body except SyntaxError: handler] *)
Definition try_except_SyntaxError {A} (body handler : result A) : result A :=
  match body with
  | inl SyntaxError => handler
  | _ => body
  end.

(** [for x in xs: s = body(s, x)], stopping at the first exception. *)
Fixpoint for_each {A S} (xs : list A) (body : S → A → result S) (s : S)
  : result S :=
  match xs with
  | [] => mret s
  | x :: xs' => s' ← body s x; for_each xs' body s'
  end.

(** ** Syntax trees, as far as [_extract_imports] inspects them

    [Other] stands for every node that is neither an [ast.Import] nor an
    [ast.ImportFrom], with its child statements (module, function and class
    bodies, branches, loops, ...). *)

Record alias := Alias { alias_name : string; alias_asname : option string }.

Inductive node :=
| Import (names : list alias)
| ImportFrom (module : option string) (names : list alias) (level : nat)
| Other (children : list node).

(** [ast.walk]: the node and all its descendants (the library promises no
    particular order, and the caller only adds to a set).  The [alias]
    nodes it also yields are neither imports nor parents of any node. *)
Fixpoint walk (n : node) : list node :=
  n :: match n with
       | Other children => flat_map walk children
       | _ => []
       end.

(** The body of the loop over [ast.walk(tree)]. *)
Definition visit (imports : gset string) (n : node) : gset string :=
  match n with
  | Import names =>
      foldl (λ acc a, acc ∪ {[ first_field "." (alias_name a) ]}) imports names
  | ImportFrom (Some m) _ _ =>
      if is_empty m then imports else imports ∪ {[ first_field "." m ]}
  | _ => imports
  end.

(** The structural path on a tree already parsed. *)
Definition imports_of_tree (tree : node) : gset string :=
  foldl visit ∅ (walk tree).

Record DependencyReport := {
  all_dependencies : gset string;
  categorized : gmap string (gset string);
  requirements : list string
}.

(** Modelled from the spec: [_generate_requirements] is called by
    [analyze_dependencies] but defined nowhere in the repository; the
    specification describes its result as the aggregated identifier set
    rendered as a flat list with no version pins. *)
Definition _generate_requirements (all_imports : gset string) : list string :=
  elements all_imports.

Section Analyzer.

(** [ast.parse]: a tree, or the exception it raises. *)
Variable ast_parse : string → result node.

(** The four membership predicates registered by [__init__]; their
    definitions are not part of the repository. *)
Variable _is_standard_lib : string → bool.
Variable _is_data_science_lib : string → bool.
Variable _is_ml_framework : string → bool.
Variable _is_visualization_lib : string → bool.

(** [self.import_patterns], in insertion order. *)
Definition import_patterns : list (string * (string → bool)) :=
  [ ("standard_lib", _is_standard_lib);
    ("data_science", _is_data_science_lib);
    ("ml_frameworks", _is_ml_framework);
    ("visualization", _is_visualization_lib) ].

Definition _extract_imports (code : string) : result (gset string) :=
  try_except_SyntaxError
    (tree ← ast_parse code; mret (imports_of_tree tree))
    (mret (∅ ∪ _extract_imports_regex code)).

Definition analyze_dependencies (notebook_cells : list Cell)
  : result DependencyReport :=
  all_imports ←
    for_each notebook_cells
      (λ (all_imports : gset string) cell,
         if String.eqb (cell_type cell) "code" then
           imports ← _extract_imports (source cell);
           mret (all_imports ∪ imports)
         else mret all_imports)
      ∅;
  let lib_categories : gmap string (gset string) :=
    foldl (λ acc '(category, check_func),
             <[ category := filter (λ lib, check_func lib = true) all_imports ]> acc)
          ∅ import_patterns in
  mret {| all_dependencies := all_imports;
          categorized := lib_categories;
          requirements := _generate_requirements all_imports |}.

End Analyzer.

(** The tree [ast.parse] builds for [example_cell]. *)
Definition example_tree : node :=
  Other [ Import [Alias "pandas" (Some "pd")];
          ImportFrom (Some "sklearn.linear_model")
                     [Alias "LinearRegression" None] 0 ].

(** ** Notebook parser ([notebook_parser.py]) *)

Definition supported_versions : list Z := [4; 5]%Z.

Definition _categorize_code_cell (source : string) : string :=
  if is_empty (strip source) then "empty"
  else
    let source_lower := lower source in
    if any_in ["import"; "from "] source_lower then "imports"
    else if any_in ["def "; "class "; "function"] source_lower
    then "function_definitions"
    else if any_in ["model"; "train"; "fit"; "compile"] source_lower
    then "model_training"
    else if any_in ["plot"; "visualize"; "plt."; "seaborn"] source_lower
    then "visualization"
    else if any_in ["preprocess"; "clean"; "transform"] source_lower
    then "data_processing"
    else if any_in ["test"; "assert"; "check"] source_lower
    then "testing"
    else "general_code".

Definition _categorize_markdown_cell (source : string) : string :=
  if is_empty (strip source) then "empty"
  else
    let source_lower := lower source in
    if any_in ["# introduction"; "# overview"; "# abstract"] source_lower
    then "introduction"
    else if any_in ["# setup"; "# installation"; "# requirements"] source_lower
    then "setup"
    else if any_in ["# data"; "# dataset"; "# loading"] source_lower
    then "data_description"
    else if any_in ["# method"; "# approach"; "# methodology"] source_lower
    then "methodology"
    else if any_in ["# result"; "# output"; "# finding"] source_lower
    then "results"
    else if any_in ["# conclusion"; "# summary"; "# discussion"] source_lower
    then "conclusion"
    else if startswith "#" source_lower || contains "##" source_lower
    then "section_header"
    else "documentation".

(** The source of a raw cell as one string: fragments are joined with the
    empty separator, a string is taken as it is. *)
Definition normalize_source (source_parts : RawSource) : string :=
  match source_parts with
  | SourceList parts => join "" parts
  | SourceStr s => s
  end.

(** The body of the loop of [_extract_cells]. *)
Definition extract_cell (cell : RawCell) : Cell :=
  let cell_type := default "code" (raw_cell_type cell) in
  let source := normalize_source (default (SourceList []) (raw_source cell)) in
  {| cell_type := cell_type;
     source := source;
     metadata := default (JObj []) (raw_metadata cell);
     outputs := if String.eqb cell_type "code"
                then default [] (raw_outputs cell) else [];
     category := if String.eqb cell_type "code"
                 then _categorize_code_cell source
                 else if String.eqb cell_type "markdown"
                 then _categorize_markdown_cell source
                 else "other" |}.

Definition _extract_cells (cells : list RawCell) : list Cell :=
  foldl (λ parsed_cells cell, parsed_cells ++ [extract_cell cell]) [] cells.

(** Kernel descriptors of the notebook metadata, typed as the notebook
    format has them; every other key is carried in [other_metadata]. *)
Record KernelSpec := {
  ks_name : option string;
  ks_display_name : option string;
  ks_language : option string
}.

Record LanguageInfo := {
  li_name : option string;
  li_version : option string
}.

Record NotebookMetadata := {
  kernelspec : option KernelSpec;
  language_info : option LanguageInfo;
  other_metadata : list (string * json)
}.

Definition empty_metadata : NotebookMetadata :=
  {| kernelspec := None; language_info := None; other_metadata := [] |}.

Definition _extract_kernel_info (md : NotebookMetadata) : gmap string string :=
  match kernelspec md with
  | Some ks =>
      <[ "language" := default "python" (ks_language ks) ]>
      (<[ "display_name" := default "unknown" (ks_display_name ks) ]>
       (<[ "name" := default "unknown" (ks_name ks) ]> ∅))
  | None =>
      match language_info md with
      | Some li =>
          <[ "version" := default "unknown" (li_version li) ]>
          (<[ "name" := default "python" (li_name li) ]> ∅)
      | None => ∅
      end
  end.

(** The decoded document; [None] is an absent key. *)
Record RawNotebook := {
  nbformat : option Z;
  nb_metadata : option NotebookMetadata;
  nb_cells : option (list RawCell)
}.

Record ParsedNotebook := {
  pn_metadata : NotebookMetadata;
  pn_cells : list Cell;
  pn_kernel_info : gmap string string
}.

Definition in_versions (v : Z) (vs : list Z) : bool := existsb (Z.eqb v) vs.

Section Parser.

(** Opening the file and decoding it, for a file that holds a document of
    the notebook format: the document, typed as the format has it, or the
    text of the exception raised on the way.  A file whose JSON value is
    not of that shape (a list, a [null] where a list is expected) is not
    covered: on it the lines after the [try] raise [AttributeError] or
    [TypeError]. *)
Variable load_json : string → string + RawNotebook.

Definition parse_notebook (notebook_path : string) : result ParsedNotebook :=
  match load_json notebook_path with
  | inl e => raise (ValueError ("Failed to read notebook file: " +:+ e))
  | inr notebook_content =>
      let nb_version := default 4%Z (nbformat notebook_content) in
      if negb (in_versions nb_version supported_versions)
      then raise (ValueError ("Unsupported notebook version: " +:+ pretty nb_version))
      else
        mret {| pn_metadata := default empty_metadata (nb_metadata notebook_content);
                pn_cells := _extract_cells (default [] (nb_cells notebook_content));
                pn_kernel_info :=
                  _extract_kernel_info
                    (default empty_metadata (nb_metadata notebook_content)) |}
  end.

End Parser.

(** ** Code generator ([code_generator.py]) *)

Definition DQ3 : string := DQ +:+ DQ +:+ DQ.

(** Every parsed cell carries its category, so the default of
    [cell.get('category', 'other')] is not needed. *)
Definition _categorize_cells (cells : list Cell) : gmap string (list Cell) :=
  foldl (λ (categorized : gmap string (list Cell)) cell,
           let c := category cell in
           let categorized :=
             match categorized !! c with
             | None => <[ c := [] ]> categorized
             | Some _ => categorized
             end in
           alter (λ l, l ++ [cell]) c categorized)
        ∅ cells.

Definition execution_categories : list string :=
  ["data_processing"; "model_training"; "visualization"; "general_code"].

(** [f"    # {category.replace('_', ' ').title()}"] *)
Definition section_label (c : string) : string :=
  "    # " +:+ title (replace_char "_" " " c).

(** ['\n'.join(f"    {line}" for line in source.split('\n'))] *)
Definition indent_code (source : string) : string :=
  join NL (map (λ line, "    " +:+ line) (split nl source)).

Definition main_header : list string :=
  [ "#!/usr/bin/env python3";
    DQ3;
    "Main execution script generated from Jupyter notebook";
    DQ3;
    NL ].

Definition main_opening : list string :=
  [ "def main():";
    "    " +:+ DQ3 +:+ "Main execution function" +:+ DQ3 ].

Definition main_closing : list string :=
  [ NL +:+ "if __name__ == " +:+ DQ +:+ "__main__" +:+ DQ +:+ ":";
    "    main()" ].

Definition _generate_main_script (categorized_cells : gmap string (list Cell))
  : string :=
  let lines := main_header in
  let lines :=
    match categorized_cells !! "imports" with
    | Some cells => foldl (λ lines cell, lines ++ [source cell]) lines cells ++ [NL]
    | None => lines
    end in
  let lines := lines ++ main_opening in
  let lines :=
    foldl (λ lines c,
             match categorized_cells !! c with
             | Some cells =>
                 foldl (λ lines cell, lines ++ [indent_code (source cell)])
                       (lines ++ [section_label c]) cells
                 ++ [""]
             | None => lines
             end)
          lines execution_categories in
  let lines := lines ++ main_closing in
  join NL lines.

Definition _generate_functions_module (function_cells : list Cell) : string :=
  let lines := [ DQ3; "Utility functions generated from Jupyter notebook"; DQ3; NL ] in
  join NL (foldl (λ lines cell, lines ++ [source cell; ""]) lines function_cells).

Definition _generate_training_module (training_cells : list Cell) : string :=
  let lines := [ DQ3; "Training module for machine learning models"; DQ3; NL ] in
  join NL (foldl (λ lines cell, lines ++ [source cell; ""]) lines training_cells).

(** The text of the literal [config_content], line by line; every line,
    the last included, ends with a newline. *)
Definition config_lines : list string :=
  [ DQ3 +:+ "Configuration file for ML project" +:+ DQ3;
    "";
    "import os";
    "from pathlib import Path";
    "";
    "# Project structure";
    "PROJECT_ROOT = Path(__file__).parent";
    "DATA_DIR = PROJECT_ROOT / 'data'";
    "MODELS_DIR = PROJECT_ROOT / 'models'";
    "REPORTS_DIR = PROJECT_ROOT / 'reports'";
    "";
    "# Data configuration";
    "class DataConfig:";
    "    RAW_DATA_PATH = DATA_DIR / 'raw'";
    "    PROCESSED_DATA_PATH = DATA_DIR / 'processed'";
    "    ";
    "class ModelConfig:";
    "    SAVE_PATH = MODELS_DIR / 'trained'";
    "    HYPERPARAMETERS = {";
    "        'random_state': 42,";
    "        'test_size': 0.2";
    "    }" ].

Definition config_content : string :=
  join "" (map (λ line, line +:+ NL) config_lines).

(** Paths as [pathlib] keeps them on a POSIX system. *)
Module Pathlib.

(** The root, empty for a relative path, and the components after it. *)
Record PurePath := {
  root : string;
  parts : list string
}.

(** [part.lstrip('/')] *)
Fixpoint lstrip_sep (part : string) : string :=
  match part with
  | String "/" rest => lstrip_sep rest
  | _ => part
  end.

(** [splitroot]: exactly two leading slashes are kept as the root, any
    other number of them counts as one. *)
Definition splitroot (part : string) : string * string :=
  match part with
  | String "/" _ =>
      let stripped_part := lstrip_sep part in
      if (String.length part - String.length stripped_part =? 2)%nat
      then ("//", stripped_part)
      else ("/", stripped_part)
  | _ => ("", part)
  end.

(** [parse_parts] on one string: empty components and [.] are dropped,
    [..] is kept. *)
Definition parse_parts (part : string) : PurePath :=
  let '(root, rel) := splitroot part in
  {| root := root;
     parts := filter (λ x, x ≠ "" ∧ x ≠ ".") (split "/" rel) |}.

(** [Path(s)] *)
Definition Path (s : string) : PurePath := parse_parts s.

(** [p / key]: a key with a root replaces [p]. *)
Definition truediv (p : PurePath) (key : string) : PurePath :=
  let q := parse_parts key in
  if is_empty (root q)
  then {| root := root p; parts := parts p ++ parts q |}
  else q.

(** [str(p)] *)
Definition str (p : PurePath) : string :=
  let s := root p +:+ join "/" (parts p) in
  if is_empty s then "." else s.

End Pathlib.

(** Files are a map from path to text, a file being named by the path
    [pathlib] renders for it; [generated_files] maps a file name to the
    path it was written to.  Creating the directory and writing a file
    are taken to succeed. *)
Record Output := {
  files : gmap string string;
  generated_files : gmap string string
}.

(** [str(Path(output_path) / name)] *)
Definition path_div (output_path name : string) : string :=
  Pathlib.str (Pathlib.truediv (Pathlib.Path output_path) name).

(** [file.write_text(text); generated_files[name] = str(file)] *)
Definition write_file (output_path name text : string) (out : Output) : Output :=
  {| files := <[ path_div output_path name := text ]> (files out);
     generated_files := <[ name := path_div output_path name ]> (generated_files out) |}.

Definition _generate_config_files (parsed_notebook : ParsedNotebook)
    (output_path : string) (out : Output) : Output :=
  write_file output_path "config.py" config_content out.

(** [fs] is the content of the file system before the call. *)
Definition generate_python_files (parsed_notebook : ParsedNotebook)
    (output_dir : string) (fs : gmap string string) : Output :=
  let out := {| files := fs; generated_files := ∅ |} in
  let categorized_cells := _categorize_cells (pn_cells parsed_notebook) in
  let out := write_file output_dir "main.py"
               (_generate_main_script categorized_cells) out in
  let out :=
    match categorized_cells !! "function_definitions" with
    | Some cells => write_file output_dir "functions.py"
                      (_generate_functions_module cells) out
    | None => out
    end in
  let out :=
    match categorized_cells !! "model_training" with
    | Some cells => write_file output_dir "training.py"
                      (_generate_training_module cells) out
    | None => out
    end in
  _generate_config_files parsed_notebook output_dir out.

Definition mk_code (src : string) : Cell :=
  extract_cell {| raw_cell_type := Some "code"; raw_source := Some (SourceStr src);
                  raw_metadata := None; raw_outputs := None |}.

(** ** Instances used in the examples *)

Definition numpy_tree : node := Other [Import [Alias "numpy" None]].

(** A source text made of the single character U+0000. *)
Definition nul_source : string := String "000"%char "".

(** Results of [ast.parse] (CPython 3.11) on the sources used below; any
    other source is answered with [SyntaxError]. *)
Definition sample_parse (code : string) : result node :=
  if String.eqb code example_cell then mret example_tree
  else if String.eqb code "import numpy" then mret numpy_tree
  else if String.eqb code "import numpy as np" then mret (Other [Import [Alias "numpy" (Some "np")]])
  else if String.eqb code "def f(x): return x+1" then mret (Other [Other []])
  else if String.eqb code "np.mean([1,2,3])" then mret (Other [Other []])
  else if String.eqb code nul_source
  then raise (ValueError "source code string cannot contain null bytes")
  else raise SyntaxError.

Definition sample_standard_lib (lib : string) : bool := bool_decide (lib ∈ ["os"; "sys"; "re"]).
Definition sample_data_science (lib : string) : bool := bool_decide (lib ∈ ["numpy"; "pandas"]).
Definition sample_ml_framework (lib : string) : bool := bool_decide (lib ∈ ["sklearn"; "torch"]).
Definition sample_visualization (lib : string) : bool := bool_decide (lib ∈ ["matplotlib"; "seaborn"]).

Definition sample_analyze : list Cell → result DependencyReport :=
  analyze_dependencies sample_parse sample_standard_lib sample_data_science
    sample_ml_framework sample_visualization.

Definition sample_load (doc : RawNotebook) (path : string) : string + RawNotebook :=
  if String.eqb path "nb.ipynb" then inr doc else inl "No such file or directory".

Definition raw_code (src : RawSource) : RawCell :=
  {| raw_cell_type := Some "code"; raw_source := Some src;
     raw_metadata := None; raw_outputs := None |}.

(** Every character is white space. *)
Fixpoint all_space (s : string) : bool :=
  match s with
  | EmptyString => true
  | String c s' => isspace c && all_space s'
  end.


(** ** Definitions used to state the properties *)

(** The text [pathlib] renders in front of a file name placed in [dir]:
    the normalised directory followed by a slash, the root alone for a
    root directory, nothing for the current directory. *)
Definition dir_prefix (dir : string) : string :=
  let p := Pathlib.Path dir in
  Pathlib.root p +:+ match Pathlib.parts p with
                     | [] => ""
                     | ps => join "/" ps +:+ "/"
                     end.






(** The cells of one category, in document order. *)
Definition cells_of (c : string) (cells : list Cell) : list Cell :=
  filter (λ cell, category cell = c) cells.

(** The lines of the main module contributed by the import cells and by
    one execution category, read off the document-order cell sequence. *)
Definition imports_block (cells : list Cell) : list string :=
  match cells_of "imports" cells with
  | [] => []
  | l => map source l ++ [NL]
  end.

Definition section_block (cells : list Cell) (c : string) : list string :=
  match cells_of c cells with
  | [] => []
  | l => section_label c :: map (λ cell, indent_code (source cell)) l ++ [""]
  end.

Definition main_layout (cells : list Cell) : list string :=
  main_header ++ imports_block cells ++ main_opening
  ++ flat_map (section_block cells) execution_categories ++ main_closing.

Section AnalyzerAux.

Variable ast_parse : string → result node.

(** [ast.parse] returns a tree or raises [SyntaxError] on this source. *)
Definition parse_recoverable (code : string) : bool :=
  match ast_parse code with
  | inr _ | inl SyntaxError => true
  | inl _ => false
  end.

(** Every code cell of the sequence has a recoverable source. *)
Definition analyzable (cells : list Cell) : bool :=
  forallb (λ cell, negb (String.eqb (cell_type cell) "code")
                   || parse_recoverable (source cell)) cells.

(** The identifiers one cell contributes. *)
Definition cell_imports (cell : Cell) : gset string :=
  if String.eqb (cell_type cell) "code" then
    match _extract_imports ast_parse (source cell) with
    | inr imports => imports
    | inl _ => ∅
    end
  else ∅.

End AnalyzerAux.

(** The character [c] occurs in [s]. *)
Fixpoint has_char (c : ascii) (s : string) : bool :=
  match s with
  | EmptyString => false
  | String a s' => Ascii.eqb a c || has_char c s'
  end.

(** A dictionary entry as [in] and indexing see it: no entry for no cell. *)
Definition entry {A} (l : list A) : option (list A) :=
  match l with
  | [] => None
  | _ => Some l
  end.

(** The end-to-end scenario of the specification. *)
Definition scenario : list Cell :=
  [ mk_code "import numpy as np"; mk_code "def f(x): return x+1"; mk_code "np.mean([1,2,3])" ].

(** ** Proof steps *)



(** The categories a markdown cell with a heading marker can get. *)
Definition heading_categories : list string :=
  [ "introduction"; "setup"; "data_description"; "methodology"; "results";
    "conclusion"; "section_header" ].

(** Evaluate lookups in a map built by insertions under distinct keys. *)
Ltac map_lookup :=
  repeat first
    [ rewrite lookup_insert_eq
    | rewrite lookup_insert_ne by done
    | rewrite lookup_empty ].

Definition sample_notebook : RawNotebook :=
  {| nbformat := Some 4%Z; nb_metadata := None;
     nb_cells := Some [ raw_code (SourceList ["import os"; NL; "x = 1"]);
                        {| raw_cell_type := Some "markdown";
                           raw_source := Some (SourceStr "# Title");
                           raw_metadata := None;
                           raw_outputs := Some [JNull] |} ] |}.

(** The categories whose cells reach a generated file. *)
Definition emitted_categories : list string :=
  "imports" :: "function_definitions" :: execution_categories.

Definition sample_parsed (cells : list Cell) : ParsedNotebook :=
  {| pn_metadata := empty_metadata; pn_cells := cells; pn_kernel_info := ∅ |}.

(** The identifier [x] is contributed by the import node [n]. *)
Definition declares (n : node) (x : string) : Prop :=
  match n with
  | Import names => ∃ a, a ∈ names ∧ x = first_field "." (alias_name a)
  | ImportFrom (Some m) _ _ => m ≠ "" ∧ x = first_field "." m
  | _ => False
  end.



(** A function nested in a class nested in a module, importing on the way. *)
Definition nested_tree : node :=
  Other [ Other [ Other [ Import [Alias "os.path" None] ];
                  ImportFrom None [Alias "sibling" None] 1 ];
          ImportFrom (Some "numpy.linalg") [Alias "norm" None] 0 ].

(** ** Environment configuration ([config_manager.py])

    [dependencies] is the dictionary handed to [create_ml_config], given
    by its items in iteration order, each with its libraries in iteration
    order. *)

(** [lib in ['tensorflow', 'pytorch', 'cudatoolkit']] *)
Definition conda_installed (lib : string) : bool :=
  existsb (String.eqb lib) ["tensorflow"; "pytorch"; "cudatoolkit"].

Definition _create_environment_config (dependencies : list (string * list string))
  : json :=
  let channels := [JStr "conda-forge"; JStr "defaults"] in
  let '(conda_dependencies, pip_dependencies) :=
    foldl (λ acc '(category, libs),
             foldl (λ '(conda_dependencies, pip_dependencies) lib,
                      if conda_installed lib
                      then (conda_dependencies ++ [lib], pip_dependencies)
                      else (conda_dependencies, pip_dependencies ++ [lib]))
                   acc libs)
          ([], []) dependencies in
  JObj [ ("name", JStr "ml-project-env");
         ("channels", JArr channels);
         ("dependencies",
          JArr (map JStr conda_dependencies
                ++ [JObj [("pip", JArr (map JStr pip_dependencies))]])) ].

(** ** Deep update of a configuration ([config_manager.py])

    A dictionary is the list of its items in insertion order, with
    distinct keys. *)

(** [d[k]], when [k in d] *)
Fixpoint dict_get (k : string) (d : list (string * json)) : option json :=
  match d with
  | [] => None
  | (k', v) :: d' => if String.eqb k' k then Some v else dict_get k d'
  end.

(** [d[k] = v]: an existing key keeps its place, a new one goes last. *)
Fixpoint dict_set (k : string) (v : json) (d : list (string * json))
  : list (string * json) :=
  match d with
  | [] => [(k, v)]
  | (k', v') :: d' =>
      if String.eqb k' k then (k, v) :: d' else (k', v') :: dict_set k v d'
  end.

(** The function [deep_update] local to [update_config]; [update] is a
    dictionary, anything else updates nothing. *)
Fixpoint deep_update (update : json) (source : list (string * json))
  : list (string * json) :=
  match update with
  | JObj items =>
      (fix loop (items : list (string * json)) (source : list (string * json)) :=
         match items with
         | [] => source
         | (key, value) :: rest =>
             loop rest
               match value, dict_get key source with
               | JObj _, Some (JObj sub) =>
                   dict_set key (JObj (deep_update value sub)) source
               | _, _ => dict_set key value source
               end
         end) items source
  | _ => source
  end.

(** One step of the loop of [deep_update]. *)
Definition deep_update_item (source : list (string * json)) (item : string * json)
  : list (string * json) :=
  match item.2, dict_get item.1 source with
  | JObj _, Some (JObj sub) =>
      dict_set item.1 (JObj (deep_update item.2 sub)) source
  | _, _ => dict_set item.1 item.2 source
  end.

Definition sample_config : list (string * json) :=
  [ ("project", JObj [("name", JStr "demo"); ("version", JStr "1.0.0")]);
    ("framework", JStr "generic") ].

Definition sample_updates : list (string * json) :=
  [ ("project", JObj [("version", JStr "1.1.0")]);
    ("seed", JNum 7) ].
(** ** Evaluation of the model on sample inputs *)

Example lower_ex : lower "Import OS" = "import os".
Proof. reflexivity. Qed.

Example strip_ex : strip (" a b " +:+ NL) = "a b".
Proof. reflexivity. Qed.

Example split_ex : split "," "a,b," = ["a"; "b"; ""].
Proof. reflexivity. Qed.

Example title_ex : title (replace_char "_" " " "data_processing") = "Data Processing".
Proof. reflexivity. Qed.

Example findall_import_ex :
  Re.findall import_pattern example_cell = ["pandas as pd"].
Proof. vm_compute. reflexivity. Qed.

Example findall_from_ex :
  Re.findall from_pattern example_cell = ["sklearn.linear_model"].
Proof. vm_compute. reflexivity. Qed.

Example findall_ex2 :
  Re.findall import_pattern
    (NL +:+ NL +:+ " import os, sys.path # c" +:+ NL +:+ "import" +:+ NL +:+ "foo")
  = ["os, sys.path "; "foo"].
Proof. vm_compute. reflexivity. Qed.

Example findall_ex3 : Re.findall import_pattern "import   #x" = [" "].
Proof. vm_compute. reflexivity. Qed.

Example findall_ex4 :
  Re.findall from_pattern
    ("from a.b import c" +:+ NL +:+ "from . import x" +:+ NL +:+ "from" +:+ NL +:+ " q  import z")
  = ["a.b"; "."; "q"].
Proof. vm_compute. reflexivity. Qed.

Example regex_ex : _extract_imports_regex example_cell = {[ "pandas as pd"; "sklearn" ]}.
Proof. vm_compute. reflexivity. Qed.

Example structural_ex : imports_of_tree example_tree = {[ "pandas"; "sklearn" ]}.
Proof. vm_compute. reflexivity. Qed.

Example categorize_ex1 : _categorize_code_cell "import numpy as np" = "imports".
Proof. reflexivity. Qed.

Example categorize_ex2 : _categorize_code_cell "def f(x): return x+1" = "function_definitions".
Proof. reflexivity. Qed.

Example categorize_ex3 : _categorize_code_cell "np.mean([1,2,3])" = "general_code".
Proof. reflexivity. Qed.

Example categorize_ex4 : _categorize_code_cell ("  " +:+ NL) = "empty".
Proof. reflexivity. Qed.

Example categorize_md_ex : _categorize_markdown_cell "Some *notes*" = "documentation".
Proof. reflexivity. Qed.

Example main_script_empty :
  _generate_main_script (_categorize_cells []) =
  join NL (main_header ++ main_opening ++ main_closing).
Proof. vm_compute. reflexivity. Qed.

Example main_script_ex :
  split nl (_generate_main_script (_categorize_cells
     [mk_code "plt.plot(x)"; mk_code ("clean(df)" +:+ NL +:+ NL +:+ "y = 1"); mk_code "import os"]))
  = [ "#!/usr/bin/env python3"; DQ3;
      "Main execution script generated from Jupyter notebook"; DQ3; ""; "";
      "import os"; ""; "";
      "def main():"; "    " +:+ DQ3 +:+ "Main execution function" +:+ DQ3;
      "    # Data Processing"; "    clean(df)"; "    "; "    y = 1"; "";
      "    # Visualization"; "    plt.plot(x)"; "";
      ""; "if __name__ == " +:+ DQ +:+ "__main__" +:+ DQ +:+ ":"; "    main()" ].
Proof. vm_compute. reflexivity. Qed.

Example scenario_categories :
  map category scenario = ["imports"; "function_definitions"; "general_code"].
Proof. reflexivity. Qed.

Example scenario_functions_module :
  _generate_functions_module (cells_of "function_definitions" scenario)
  = join NL [DQ3; "Utility functions generated from Jupyter notebook"; DQ3; NL;
             "def f(x): return x+1"; ""].
Proof. vm_compute. reflexivity. Qed.

Example scenario_dependencies :
  all_dependencies <$> sample_analyze scenario = mret {[ "numpy" ]}.
Proof. vm_compute. reflexivity. Qed.

Example regrouping_ex :
  map category
    [ mk_code "plt.plot(x)"; mk_code "clean(df)"; mk_code "model.fit(x, y)" ]
  = ["visualization"; "data_processing"; "model_training"]
  ∧ flat_map (section_block
       [ mk_code "plt.plot(x)"; mk_code "clean(df)"; mk_code "model.fit(x, y)" ])
      execution_categories
    = [ "    # Data Processing"; "    clean(df)"; "";
        "    # Model Training"; "    model.fit(x, y)"; "";
        "    # Visualization"; "    plt.plot(x)"; "" ].
Proof. split; vm_compute; reflexivity. Qed.

Example stray_punctuation_ex :
  sample_analyze [mk_code "?"; mk_code "import numpy"]
  = sample_analyze [mk_code "import numpy"].
Proof. vm_compute. reflexivity. Qed.

Example deep_update_ex :
  deep_update (JObj sample_updates) sample_config
  = [ ("project", JObj [("name", JStr "demo"); ("version", JStr "1.1.0")]);
      ("framework", JStr "generic");
      ("seed", JNum 7) ].
Proof. reflexivity. Qed.

Example path_div_dot_ex :
  path_div "./converted_project" "main.py" = "converted_project/main.py".
Proof. reflexivity. Qed.

Example path_div_trailing_sep_ex : path_div "out/" "main.py" = "out/main.py".
Proof. reflexivity. Qed.

Example path_div_empty_ex : path_div "" "main.py" = "main.py".
Proof. reflexivity. Qed.

Example path_div_root_ex :
  map (λ dir, path_div dir "config.py") ["/"; "//srv"; "///srv//x/."; "a/../b"]
  = ["/config.py"; "//srv/config.py"; "/srv/x/config.py"; "a/../b/config.py"].
Proof. reflexivity. Qed.

Example path_str_ex :
  map (λ s, Pathlib.str (Pathlib.Path s)) [""; "."; "./"; "/"; "a//b/"]
  = ["."; "."; "."; "/"; "a/b"].
Proof. reflexivity. Qed.

(** ** Properties of the text primitives *)

Lemma append_cons (c : ascii) (s t : string) :
  String c s +:+ t = String c (s +:+ t).
Proof. reflexivity. Qed.

Lemma append_empty_r (s : string) : s +:+ "" = s.
Proof. induction s as [|c s IH]; [done | by rewrite append_cons, IH]. Qed.

Lemma append_assoc (a b c : string) : (a +:+ b) +:+ c = a +:+ (b +:+ c).
Proof. induction a as [|x a IH]; [done | by rewrite !append_cons, IH]. Qed.

Lemma join_empty_sep (parts : list string) :
  join "" parts = foldr String.append "" parts.
Proof.
  induction parts as [|p rest IH]; [done |].
  destruct rest as [|q rest].
  - simpl. by rewrite append_empty_r.
  - change (join "" (p :: q :: rest)) with (p +:+ "" +:+ join "" (q :: rest)).
    rewrite IH. reflexivity.
Qed.

Lemma join_empty_sep_app (l1 l2 : list string) :
  join "" (l1 ++ l2) = join "" l1 +:+ join "" l2.
Proof.
  rewrite !join_empty_sep. induction l1 as [|p l1 IH]; simpl; [done |].
  by rewrite IH, append_assoc.
Qed.

Lemma rstrip_empty (s : string) : rstrip s = "" → all_space s = true.
Proof.
  induction s as [|c s IH]; simpl; [done |].
  destruct (rstrip s) eqn:Hr; [| discriminate].
  destruct (isspace c); [auto | discriminate].
Qed.

Lemma lstrip_all_space (s : string) : all_space (lstrip s) = true → all_space s = true.
Proof.
  induction s as [|c s IH]; simpl; [done |].
  destruct (isspace c) eqn:Hc; simpl; [auto |].
  by rewrite Hc.
Qed.

Lemma strip_empty_all_space (s : string) :
  is_empty (strip s) = true → all_space s = true.
Proof.
  unfold strip. intros H. apply lstrip_all_space, rstrip_empty.
  by destruct (rstrip (lstrip s)).
Qed.

Lemma all_space_strip_empty (s : string) :
  all_space s = true → is_empty (strip s) = true.
Proof.
  unfold strip. induction s as [|c s IH]; simpl; [done |].
  intros [Hc Hs]%andb_prop. rewrite Hc. auto.
Qed.

Lemma isspace_lower_char (c : ascii) : isspace c = true → lower_char c = c.
Proof. destruct c as [[] [] [] [] [] [] [] []]; vm_compute; congruence. Qed.

Lemma all_space_lower (s : string) : all_space s = true → lower s = s.
Proof.
  induction s as [|c s IH]; simpl; [done |].
  intros [Hc Hs]%andb_prop. unfold lower in *. simpl.
  by rewrite isspace_lower_char, IH.
Qed.

Lemma prefix_head (c a : ascii) (p s : string) :
  String.prefix (String c p) (String a s) = true → c = a.
Proof. simpl. destruct (ascii_dec c a); [done | discriminate]. Qed.

Lemma contains_all_space (c : ascii) (p s : string) :
  contains (String c p) s = true → all_space s = true → isspace c = true.
Proof.
  induction s as [|a s IH]; [simpl; discriminate |].
  intros Hin [Ha Hs]%andb_prop.
  change (contains (String c p) (String a s))
    with (String.prefix (String c p) (String a s) || contains (String c p) s) in Hin.
  apply orb_prop in Hin as [Hp | Hin]; [| auto].
  by rewrite (prefix_head _ _ _ _ Hp).
Qed.

Lemma contains_letter_not_blank (c : ascii) (p s : string) :
  isspace c = false → contains (String c p) (lower s) = true →
  is_empty (strip s) = false.
Proof.
  intros Hc Hin. destruct (is_empty (strip s)) eqn:He; [| done].
  apply strip_empty_all_space in He.
  rewrite (all_space_lower _ He) in Hin.
  pose proof (contains_all_space _ _ _ Hin He). congruence.
Qed.

(** ** Source normalization *)

(** C7: a source given as fragments normalizes to the concatenation of the
    fragments, nothing inserted between them, and to the same text (and the
    same parsed cell) as the single string that is already concatenated;
    in particular for the fragments "import os\n", "import sys". *)
Theorem normalize_source_concat (parts : list string) :
  normalize_source (SourceList parts) = foldr String.append "" parts
  ∧ normalize_source (SourceList parts)
    = normalize_source (SourceStr (foldr String.append "" parts))
  ∧ (∀ kind md outs,
       extract_cell {| raw_cell_type := kind; raw_source := Some (SourceList parts);
                       raw_metadata := md; raw_outputs := outs |}
       = extract_cell {| raw_cell_type := kind;
                         raw_source := Some (SourceStr (foldr String.append "" parts));
                         raw_metadata := md; raw_outputs := outs |})
  ∧ (∀ parts', normalize_source (SourceList (parts ++ parts'))
               = normalize_source (SourceList parts)
                 +:+ normalize_source (SourceList parts'))
  ∧ normalize_source (SourceList ["import os" +:+ NL; "import sys"])
    = normalize_source (SourceStr ("import os" +:+ NL +:+ "import sys")).
Proof.
  assert (Hn : normalize_source (SourceList parts) = foldr String.append "" parts)
    by apply join_empty_sep.
  split; [exact Hn |]. split; [exact Hn |]. split; [| split].
  - intros kind md outs. unfold extract_cell. simpl default.
    change (normalize_source (SourceStr ?s)) with s. by rewrite Hn.
  - intros parts'. apply join_empty_sep_app.
  - reflexivity.
Qed.

(** ** Classification *)

(** C10: a code cell whose lower-cased source contains the characters
    "import" anywhere, also inside a longer word such as "important" in a
    comment, is classified [imports], whatever later rules it would match. *)
Theorem import_substring_wins (source : string) :
  contains "import" (lower source) = true →
  is_empty (strip source) = false
  ∧ _categorize_code_cell source = "imports"
  ∧ category (extract_cell (raw_code (SourceStr source))) = "imports".
Proof.
  intros Hin.
  assert (He : is_empty (strip source) = false).
  { by apply (contains_letter_not_blank "i" "mport"). }
  assert (Hc : _categorize_code_cell source = "imports").
  { unfold _categorize_code_cell. rewrite He.
    unfold any_in at 1. simpl existsb. by rewrite Hin. }
  split; [exact He |]. split; [exact Hc |].
  unfold extract_cell, raw_code. simpl. exact Hc.
Qed.

Lemma import_substring_wins_witness :
  contains "import" (lower "# An IMPORTANT note: fit the model, plot, test") = true
  ∧ _categorize_code_cell "# An IMPORTANT note: fit the model, plot, test" = "imports".
Proof.
  split; [reflexivity |].
  apply (import_substring_wins "# An IMPORTANT note: fit the model, plot, test").
  reflexivity.
Defined.

Lemma extract_cells_map (cells : list RawCell) :
  _extract_cells cells = map extract_cell cells.
Proof.
  unfold _extract_cells.
  enough (H : ∀ acc, foldl (λ parsed_cells cell, parsed_cells ++ [extract_cell cell]) acc cells
                     = acc ++ map extract_cell cells) by apply (H []).
  induction cells as [|c cells IH]; intros acc; simpl.
  - by rewrite app_nil_r.
  - by rewrite IH, <- app_assoc.
Qed.









(** ** Version gate of the parser *)

Lemma in_versions_supported (v : Z) :
  in_versions v supported_versions = true ↔ v = 4%Z ∨ v = 5%Z.
Proof.
  unfold in_versions, supported_versions. simpl.
  rewrite !orb_true_iff, !Z.eqb_eq. intuition discriminate.
Qed.

(** C4: for a document that was read and decoded, parsing succeeds exactly
    when its version marker, 4 when absent, is 4 or 5; with any other
    marker it raises a [ValueError] naming the version, so there is no
    parsed notebook and nothing that runs after the parser is run. *)
Theorem parse_notebook_version_gate
    (load_json : string → string + RawNotebook) (path : string) (doc : RawNotebook) :
  load_json path = inr doc →
  let v := default 4%Z (nbformat doc) in
  let md := default empty_metadata (nb_metadata doc) in
  ((∃ nb, parse_notebook load_json path = mret nb) ↔ v = 4%Z ∨ v = 5%Z)
  ∧ (v = 4%Z ∨ v = 5%Z →
     parse_notebook load_json path
     = mret {| pn_metadata := md;
               pn_cells := map extract_cell (default [] (nb_cells doc));
               pn_kernel_info := _extract_kernel_info md |})
  ∧ (nbformat doc = None → ∃ nb, parse_notebook load_json path = mret nb)
  ∧ (¬ (v = 4%Z ∨ v = 5%Z) →
     parse_notebook load_json path
     = raise (ValueError ("Unsupported notebook version: " +:+ pretty v))
     ∧ ∀ (B : Type) (k : ParsedNotebook → result B),
         parse_notebook load_json path ≫= k
         = raise (ValueError ("Unsupported notebook version: " +:+ pretty v))).
Proof.
  intros Hload v md. unfold parse_notebook. rewrite Hload. fold v. fold md.
  rewrite extract_cells_map.
  destruct (in_versions v supported_versions) eqn:Hv; simpl negb; cbv iota.
  - apply in_versions_supported in Hv.
    split; [split; [done | eauto] |].
    split; [done |].
    split; [eauto |].
    intros Hn. by destruct Hn.
  - assert (Hn : ¬ (v = 4%Z ∨ v = 5%Z)).
    { intros H. apply in_versions_supported in H. congruence. }
    split; [split; [intros [nb Hnb]; discriminate | done] |].
    split; [done |].
    split; [| done].
    intros Habs. destruct Hn. left. subst v. by rewrite Habs.
Qed.

Lemma parse_notebook_version_gate_witness :
  parse_notebook
    (sample_load {| nbformat := Some 2%Z; nb_metadata := None; nb_cells := None |})
    "nb.ipynb"
  = raise (ValueError "Unsupported notebook version: 2").
Proof.
  pose proof (parse_notebook_version_gate
    (sample_load {| nbformat := Some 2%Z; nb_metadata := None; nb_cells := None |})
    "nb.ipynb" {| nbformat := Some 2%Z; nb_metadata := None; nb_cells := None |}
    eq_refl) as (_ & _ & _ & H).
  apply H. simpl. intros [?|?]; discriminate.
Defined.

(** ** The configuration module *)

(** C8: the text of the configuration module does not depend on the
    notebook: for any two parsed notebooks the file written is the same
    constant text, which defines the project root, the data paths and the
    model paths with [random_state] 42 and [test_size] 0.2. *)
Theorem config_module_constant
    (nb1 nb2 : ParsedNotebook) (dir1 dir2 : string) (fs1 fs2 : gmap string string) :
  files (generate_python_files nb1 dir1 fs1) !! path_div dir1 "config.py"
  = Some config_content
  ∧ files (generate_python_files nb2 dir2 fs2) !! path_div dir2 "config.py"
    = Some config_content
  ∧ (∀ out1 out2,
       files (_generate_config_files nb1 dir1 out1) !! path_div dir1 "config.py"
       = files (_generate_config_files nb2 dir1 out2) !! path_div dir1 "config.py")
  ∧ contains "PROJECT_ROOT = Path(__file__).parent" config_content = true
  ∧ contains ("class DataConfig:" +:+ NL +:+ "    RAW_DATA_PATH = DATA_DIR / 'raw'")
             config_content = true
  ∧ contains ("class ModelConfig:" +:+ NL +:+ "    SAVE_PATH = MODELS_DIR / 'trained'")
             config_content = true
  ∧ contains "'random_state': 42," config_content = true
  ∧ contains "'test_size': 0.2" config_content = true.
Proof.
  assert (Hgen : ∀ nb dir fs,
    files (generate_python_files nb dir fs) !! path_div dir "config.py"
    = Some config_content).
  { intros nb dir fs. unfold generate_python_files, _generate_config_files, write_file.
    simpl files. apply lookup_insert_eq. }
  split; [apply Hgen |]. split; [apply Hgen |].
  split.
  { intros out1 out2. unfold _generate_config_files, write_file. simpl files.
    by rewrite !lookup_insert_eq. }
  repeat split; vm_compute; reflexivity.
Qed.

(** ** The main module *)

Lemma foldl_snoc_map {A B} (f : A → B) (init : list B) (l : list A) :
  foldl (λ acc x, acc ++ [f x]) init l = init ++ map f l.
Proof.
  revert init. induction l as [|x l IH]; intros init; simpl.
  - by rewrite app_nil_r.
  - by rewrite IH, <- app_assoc.
Qed.

(** Grouping keeps, under each category, the cells of that category in
    document order, and has no entry for a category without cells. *)
Lemma categorize_cells_lookup (cells : list Cell) (c : string) :
  _categorize_cells cells !! c = entry (cells_of c cells).
Proof.
  unfold _categorize_cells, cells_of.
  induction cells as [|x cells IH] using rev_ind; [done |].
  rewrite foldl_snoc, filter_app.
  set (m := foldl _ ∅ cells) in *.
  destruct (decide (category x = c)) as [Hc | Hc].
  - rewrite filter_cons_True, filter_nil by done.
    rewrite lookup_alter. rewrite decide_True by done. subst c.
    destruct (m !! category x) as [l|] eqn:Hm.
    + rewrite Hm. simpl. destruct (filter _ cells); [discriminate |].
      injection IH as ->. reflexivity.
    + rewrite lookup_insert_eq. simpl.
      destruct (filter _ cells); [done | discriminate].
  - rewrite filter_cons_False, filter_nil, app_nil_r by done.
    rewrite lookup_alter_ne by done.
    destruct (m !! category x); [done |].
    by rewrite lookup_insert_ne.
Qed.

Lemma imports_step (cells : list Cell) (lines : list string) :
  match _categorize_cells cells !! "imports" with
  | Some cs => foldl (λ lines cell, lines ++ [source cell]) lines cs ++ [NL]
  | None => lines
  end = lines ++ imports_block cells.
Proof.
  rewrite categorize_cells_lookup. unfold imports_block.
  destruct (cells_of "imports" cells) as [|x l]; simpl entry; cbv iota.
  - by rewrite app_nil_r.
  - by rewrite (foldl_snoc_map source), <- app_assoc.
Qed.

Lemma section_step (cells : list Cell) (lines : list string) (c : string) :
  match _categorize_cells cells !! c with
  | Some cs =>
      foldl (λ lines cell, lines ++ [indent_code (source cell)])
            (lines ++ [section_label c]) cs ++ [""]
  | None => lines
  end = lines ++ section_block cells c.
Proof.
  rewrite categorize_cells_lookup. unfold section_block.
  destruct (cells_of c cells) as [|x l]; simpl entry; cbv iota.
  - by rewrite app_nil_r.
  - rewrite (foldl_snoc_map (λ cell, indent_code (source cell))).
    by rewrite <- !app_assoc.
Qed.

Lemma sections_fold (cells : list Cell) (cats : list string) (lines : list string) :
  foldl (λ lines c,
           match _categorize_cells cells !! c with
           | Some cs =>
               foldl (λ lines cell, lines ++ [indent_code (source cell)])
                     (lines ++ [section_label c]) cs ++ [""]
           | None => lines
           end) lines cats
  = lines ++ flat_map (section_block cells) cats.
Proof.
  revert lines. induction cats as [|c cats IH]; intros lines; simpl.
  - by rewrite app_nil_r.
  - by rewrite section_step, IH, <- app_assoc.
Qed.

Lemma main_script_layout (cells : list Cell) :
  _generate_main_script (_categorize_cells cells) = join NL (main_layout cells).
Proof.
  unfold _generate_main_script, main_layout.
  rewrite imports_step, sections_fold. by rewrite <- !app_assoc.
Qed.

Lemma has_char_append (c : ascii) (a b : string) :
  has_char c (a +:+ b) = has_char c a || has_char c b.
Proof.
  induction a as [|x a IH]; [done |].
  rewrite append_cons. simpl. by rewrite IH, orb_assoc.
Qed.

Lemma split_no_sep (sep : ascii) (a : string) :
  has_char sep a = false → split sep a = [a].
Proof.
  induction a as [|x a IH]; [done |]. simpl.
  intros [Hx Ha]%orb_false_elim. by rewrite Hx, IH.
Qed.

Lemma split_append_sep (sep : ascii) (a b : string) :
  has_char sep a = false →
  split sep (a +:+ String sep b) = a :: split sep b.
Proof.
  induction a as [|x a IH].
  - intros _. change ("" +:+ String sep b) with (String sep b). simpl.
    by rewrite Ascii.eqb_refl.
  - simpl has_char. intros [Hx Ha]%orb_false_elim.
    rewrite append_cons. simpl. by rewrite Hx, IH.
Qed.

Lemma split_join (sep : ascii) (parts : list string) :
  parts ≠ [] → Forall (λ p, has_char sep p = false) parts →
  split sep (join (String sep "") parts) = parts.
Proof.
  induction parts as [|p rest IH]; [done |]. intros _ Hall.
  apply Forall_cons in Hall as [Hp Hrest].
  destruct rest as [|q rest].
  - by apply split_no_sep.
  - change (join (String sep "") (p :: q :: rest))
      with (p +:+ String sep "" +:+ join (String sep "") (q :: rest)).
    change (String sep "" +:+ ?t) with (String sep t).
    rewrite split_append_sep by done. by rewrite IH.
Qed.

Lemma split_parts (sep : ascii) (s : string) :
  split sep s ≠ [] ∧ Forall (λ p, has_char sep p = false) (split sep s).
Proof.
  induction s as [|c s [Hne IH]]; simpl.
  - split; [done | by repeat constructor].
  - destruct (Ascii.eqb c sep) eqn:Hc.
    + split; [done | by constructor].
    + destruct (split sep s) as [|h t]; [done |].
      apply Forall_cons in IH as [Hh Ht].
      split; [done |]. constructor; [| done]. simpl. by rewrite Hc, Hh.
Qed.

(** Indentation is line by line: the lines of the indented text are the
    lines of the source, blank ones included, each behind four spaces. *)
Lemma indent_code_lines (source : string) :
  split nl (indent_code source) = map (λ line, "    " +:+ line) (split nl source).
Proof.
  unfold indent_code. destruct (split_parts nl source) as [Hne Hall].
  apply (split_join nl).
  - by destruct (split nl source).
  - apply Forall_fmap. eapply Forall_impl; [exact Hall |].
    intros p Hp. simpl. by rewrite has_char_append, Hp.
Qed.

(** C5, as the code has it: after a fixed header the main module consists
    of the sources of the import cells in document order, the opening of
    the entry point, then, for each of data_processing, model_training,
    visualization, general_code in this order and only if the category
    has at least one cell, a labeling comment followed by the cells of the
    category in document order, every line of each source behind four
    spaces, and last the guarded call of the entry point. *)
Theorem main_script_structure :
  (∀ cells, _generate_main_script (_categorize_cells cells) = join NL (main_layout cells))
  ∧ (∀ cells,
       main_layout cells
       = main_header ++ imports_block cells ++ main_opening
         ++ section_block cells "data_processing"
         ++ section_block cells "model_training"
         ++ section_block cells "visualization"
         ++ section_block cells "general_code" ++ main_closing)
  ∧ (∀ cells,
       imports_block cells
       = match cells_of "imports" cells with
         | [] => []
         | l => map source l ++ [NL]
         end)
  ∧ (∀ cells c,
       section_block cells c
       = match cells_of c cells with
         | [] => []
         | l => section_label c :: map (λ cell, indent_code (source cell)) l ++ [""]
         end)
  ∧ map section_label execution_categories
    = [ "    # Data Processing"; "    # Model Training";
        "    # Visualization"; "    # General Code" ]
  ∧ (∀ source, split nl (indent_code source)
               = map (λ line, "    " +:+ line) (split nl source))
  ∧ main_closing
    = [ NL +:+ "if __name__ == " +:+ DQ +:+ "__main__" +:+ DQ +:+ ":"; "    main()" ].
Proof.
  split; [exact main_script_layout |].
  split; [intros cells; unfold main_layout; simpl flat_map;
          by rewrite app_nil_r, <- !app_assoc |].
  split; [reflexivity |].
  split; [reflexivity |].
  split; [reflexivity |].
  split; [exact indent_code_lines | reflexivity].
Qed.

(** C5 as stated fails: a notebook without cells gets no labeling comment
    at all, where the specification places one for each of the four
    categories. *)
Lemma main_script_labels_counterexample :
  ¬ (∀ cells c, c ∈ execution_categories →
       section_label c ∈ split nl (_generate_main_script (_categorize_cells cells))).
Proof.
  intros H. specialize (H [] "data_processing").
  apply list_elem_of_In in H; [| unfold execution_categories; set_solver].
  vm_compute in H. intuition discriminate.
Qed.

(** ** Dependency analysis *)

Section AnalyzerProperties.

Variable ast_parse : string → result node.
Variables is_std is_ds is_ml is_vis : string → bool.

Abbreviation extract := (_extract_imports ast_parse).
Abbreviation analyze := (analyze_dependencies ast_parse is_std is_ds is_ml is_vis).
Abbreviation imports_of := (cell_imports ast_parse).

(** The loop of [analyze_dependencies] over the cells. *)
Abbreviation collect cells acc :=
  (for_each cells
     (λ (all_imports : gset string) cell,
        if String.eqb (cell_type cell) "code" then
          imports ← _extract_imports ast_parse (source cell);
          mret (all_imports ∪ imports)
        else mret all_imports) acc).

Lemma extract_imports_recoverable (code : string) :
  parse_recoverable ast_parse code = true →
  ∃ imports, extract code = mret imports.
Proof.
  unfold parse_recoverable, _extract_imports, try_except_SyntaxError.
  destruct (ast_parse code) as [[]|tree]; simpl; intros H;
    try discriminate; eauto.
Qed.

Lemma extract_imports_raises (code : string) (e : exception) :
  ast_parse code = raise e → e ≠ SyntaxError → extract code = raise e.
Proof.
  unfold _extract_imports, try_except_SyntaxError. intros -> He.
  by destruct e.
Qed.

Lemma extract_imports_unrecoverable (code : string) :
  parse_recoverable ast_parse code = false →
  ∃ e, e ≠ SyntaxError ∧ extract code = raise e.
Proof.
  unfold parse_recoverable. destruct (ast_parse code) as [e|tree] eqn:Hp.
  - intros He. exists e. split; [by destruct e |].
    apply extract_imports_raises; [done | by destruct e].
  - discriminate.
Qed.

Lemma collect_analyzable (cells : list Cell) (acc : gset string) :
  analyzable ast_parse cells = true →
  collect cells acc = mret (acc ∪ ⋃ (map imports_of cells)).
Proof.
  revert acc. induction cells as [|c cells IH]; intros acc; simpl.
  - intros _. by rewrite (right_id_L ∅ (∪)).
  - intros [Hc Hcells]%andb_prop. unfold cell_imports.
    destruct (String.eqb (cell_type c) "code"); simpl in Hc |- *.
    + destruct (extract_imports_recoverable _ Hc) as [imports Hi].
      rewrite Hi. simpl. rewrite IH by done. by rewrite (assoc_L (∪)).
    + rewrite IH by done. by rewrite (left_id_L ∅ (∪)).
Qed.

Lemma collect_returns (cells : list Cell) (acc all_imports : gset string) :
  collect cells acc = mret all_imports → analyzable ast_parse cells = true.
Proof.
  revert acc. induction cells as [|c cells IH]; intros acc; simpl; [done |].
  destruct (String.eqb (cell_type c) "code"); simpl.
  - destruct (parse_recoverable ast_parse (source c)) eqn:Hr.
    + destruct (extract_imports_recoverable _ Hr) as [imports ->]. simpl.
      apply IH.
    + destruct (extract_imports_unrecoverable _ Hr) as (e & _ & ->).
      discriminate.
  - apply IH.
Qed.

(** The report, whenever every code cell has a recoverable source. *)
Lemma analyze_analyzable (cells : list Cell) :
  analyzable ast_parse cells = true →
  analyze cells
  = mret {| all_dependencies := ⋃ (map imports_of cells);
            categorized :=
              <[ "visualization" :=
                   filter (λ lib, is_vis lib = true) (⋃ (map imports_of cells)) ]>
              (<[ "ml_frameworks" :=
                   filter (λ lib, is_ml lib = true) (⋃ (map imports_of cells)) ]>
               (<[ "data_science" :=
                   filter (λ lib, is_ds lib = true) (⋃ (map imports_of cells)) ]>
                (<[ "standard_lib" :=
                   filter (λ lib, is_std lib = true) (⋃ (map imports_of cells)) ]>
                 ∅)));
            requirements := elements (⋃ (map imports_of cells) : gset string) |}.
Proof.
  intros Ha. unfold analyze_dependencies.
  rewrite (collect_analyzable cells ∅ Ha). simpl.
  rewrite (left_id_L ∅ (∪)). reflexivity.
Qed.

Lemma analyze_returns (cells : list Cell) (r : DependencyReport) :
  analyze cells = mret r → analyzable ast_parse cells = true.
Proof.
  unfold analyze_dependencies.
  destruct (collect cells ∅) as [e|all_imports] eqn:Hc; simpl; [discriminate |].
  intros _. by apply (collect_returns cells ∅ all_imports).
Qed.


Lemma analyzable_app (cells cells' : list Cell) :
  analyzable ast_parse (cells ++ cells')
  = analyzable ast_parse cells && analyzable ast_parse cells'.
Proof. apply forallb_app. Qed.

(** X25: the report on recoverable cells: when [ast.parse] returns a tree or
    raises [SyntaxError] on the source of every code cell, the analysis
    returns a report; its identifier set is the union of the sets of the
    cells, its [categorized] field has exactly the keys standard_lib,
    data_science, ml_frameworks and visualization, and each of them maps
    to the identifiers of the set that satisfy the predicate registered
    under that key. *)
Theorem report_on_recoverable_cells (cells : list Cell) :
  analyzable ast_parse cells = true →
  ∃ r, analyze cells = mret r
    ∧ all_dependencies r = ⋃ (map imports_of cells)
    ∧ dom (categorized r)
      = {[ "standard_lib"; "data_science"; "ml_frameworks"; "visualization" ]}
    ∧ categorized r !! "standard_lib"
      = Some (filter (λ lib, is_std lib = true) (all_dependencies r))
    ∧ categorized r !! "data_science"
      = Some (filter (λ lib, is_ds lib = true) (all_dependencies r))
    ∧ categorized r !! "ml_frameworks"
      = Some (filter (λ lib, is_ml lib = true) (all_dependencies r))
    ∧ categorized r !! "visualization"
      = Some (filter (λ lib, is_vis lib = true) (all_dependencies r))
    ∧ (∀ name libs, categorized r !! name = Some libs → libs ⊆ all_dependencies r).
Proof.
  intros Ha. eexists. split; [by apply analyze_analyzable |]. simpl.
  set (all_imports := ⋃ (map imports_of cells) : gset string).
  split; [done |].
  split; [rewrite !dom_insert_L, dom_empty_L; set_solver |].
  split; [by rewrite !lookup_insert_ne, lookup_insert_eq by done |].
  split; [by rewrite !lookup_insert_ne, lookup_insert_eq by done |].
  split; [by rewrite !lookup_insert_ne, lookup_insert_eq by done |].
  split; [by rewrite lookup_insert_eq |].
  intros name libs Hl.
  repeat (apply lookup_insert_Some in Hl as [[_ <-] | [_ Hl]];
          [intros lib [_ Hin]%elem_of_filter; exact Hin |]).
  by rewrite lookup_empty in Hl.
Qed.

(** With [_generate_requirements] as the specification describes it, the
    requirements of a report list the identifiers of its set, each once
    and as it is. *)
Lemma report_requirements (cells : list Cell) (r : DependencyReport) :
  analyze cells = mret r →
  requirements r = elements (all_dependencies r)
  ∧ NoDup (requirements r)
  ∧ (∀ lib, lib ∈ requirements r ↔ lib ∈ all_dependencies r).
Proof.
  intros Hr. pose proof (analyze_returns _ _ Hr) as Ha.
  rewrite (analyze_analyzable _ Ha) in Hr. injection Hr as <-. simpl.
  split; [done |].
  split; [apply NoDup_elements | intros lib; apply elem_of_elements].
Qed.

(** The analysis returns a report exactly for the analyzable sequences. *)
Lemma analyze_returns_iff (cells : list Cell) :
  (∃ r, analyze cells = mret r) ↔ analyzable ast_parse cells = true.
Proof.
  split.
  - intros [r Hr]. by eapply analyze_returns.
  - intros Ha. eexists. by apply analyze_analyzable.
Qed.


Lemma analyze_raises (code : string) (e : exception) (after : list Cell) :
  ast_parse code = raise e → e ≠ SyntaxError →
  analyze (mk_code code :: after) = raise e.
Proof.
  intros Hp He. unfold analyze_dependencies. simpl.
  by rewrite (extract_imports_raises _ _ Hp He).
Qed.

(** A code cell whose source neither parses nor matches a pattern of the
    fallback scanner contributes no identifier. *)
Lemma unmatched_cell_contributes_nothing (code : string) :
  ast_parse code = raise SyntaxError →
  Re.findall import_pattern code = [] →
  Re.findall from_pattern code = [] →
  extract code = mret ∅.
Proof.
  intros Hp Hi Hf. unfold _extract_imports, _extract_imports_regex.
  rewrite Hp, Hi, Hf. simpl. f_equal; set_solver.
Qed.

(** Such a cell leaves the report of the other cells as it is. *)
Lemma unmatched_cell_is_local (code : string) (before after : list Cell) :
  ast_parse code = raise SyntaxError →
  Re.findall import_pattern code = [] →
  Re.findall from_pattern code = [] →
  analyze (before ++ mk_code code :: after) = analyze (before ++ after).
Proof.
  intros Hp Hi Hf.
  pose proof (unmatched_cell_contributes_nothing _ Hp Hi Hf) as He.
  assert (Hrec : parse_recoverable ast_parse code = true).
  { unfold parse_recoverable. by rewrite Hp. }
  destruct (analyzable ast_parse (before ++ after)) eqn:Ha.
  - assert (Ha' : analyzable ast_parse (before ++ mk_code code :: after) = true).
    { rewrite analyzable_app in Ha |- *. apply andb_prop in Ha as [-> Ha].
      simpl. by rewrite Hrec, Ha. }
    rewrite !analyze_analyzable by done.
    assert (Hu : ⋃ (map imports_of (before ++ mk_code code :: after))
                 = (⋃ (map imports_of (before ++ after)) : gset string)).
    { rewrite !map_app, !union_list_app_L. simpl. unfold cell_imports at 2.
      simpl. rewrite He. unfold mret, result_ret.
      by rewrite (left_id_L ∅ (∪)). }
    by rewrite Hu.
  - unfold analyze_dependencies.
    assert (Hc : ∀ acc, collect (before ++ mk_code code :: after) acc
                        = collect (before ++ after) acc).
    { clear Ha. induction before as [|b before IH]; intros acc; simpl.
      - rewrite He. simpl. by rewrite (right_id_L ∅ (∪)).
      - destruct (String.eqb (cell_type b) "code"); simpl; [| apply IH].
        destruct (extract (source b)); simpl; [done | apply IH]. }
    by rewrite Hc.
Qed.

(** C1, at the failing input: when [ast.parse] raises [ValueError] on the
    source made of the character U+0000, the analysis of the notebook
    whose only cell is a code cell with that source raises this exception
    and returns no report; hence [analyze_dependencies] does not return a
    report for every cell sequence. *)
Theorem analyze_dependencies_no_report (msg : string) :
  ast_parse nul_source = raise (ValueError msg) →
  analyze [mk_code nul_source] = raise (ValueError msg)
  ∧ (∀ r, analyze [mk_code nul_source] ≠ mret r)
  ∧ ¬ (∀ cells, ∃ r, analyze cells = mret r).
Proof.
  intros Hp.
  assert (Hr : analyze [mk_code nul_source] = raise (ValueError msg))
    by by apply analyze_raises.
  split; [exact Hr |]. split.
  - intros r Heq. rewrite Hr in Heq. discriminate.
  - intros Hall. destruct (Hall [mk_code nul_source]) as [r Heq].
    rewrite Hr in Heq. discriminate.
Qed.

(** C3, at the failing input: when [ast.parse] raises [ValueError] on the
    source made of the character U+0000, the exception leaves
    [_extract_imports] and ends [analyze_dependencies] before any later
    cell is looked at. *)
Theorem extract_imports_propagates_ValueError (msg : string) (after : list Cell) :
  ast_parse nul_source = raise (ValueError msg) →
  extract nul_source = raise (ValueError msg)
  ∧ analyze (mk_code nul_source :: after) = raise (ValueError msg).
Proof.
  intros Hp. split.
  - by apply extract_imports_raises.
  - by apply analyze_raises.
Qed.

End AnalyzerProperties.

Lemma analyze_dependencies_no_report_witness :
  sample_analyze [mk_code nul_source]
  = raise (ValueError "source code string cannot contain null bytes")
  ∧ ¬ (∀ cells, ∃ r, sample_analyze cells = mret r).
Proof.
  destruct (analyze_dependencies_no_report sample_parse sample_standard_lib
              sample_data_science sample_ml_framework sample_visualization
              "source code string cannot contain null bytes" eq_refl)
    as (Hr & _ & Hn).
  split; [exact Hr | exact Hn].
Defined.

Lemma report_on_recoverable_cells_witness :
  ∃ r, sample_analyze [mk_code example_cell; mk_code "import numpy"] = mret r
       ∧ all_dependencies r = {[ "pandas"; "sklearn"; "numpy" ]}
       ∧ categorized r !! "ml_frameworks" = Some {[ "sklearn" ]}.
Proof.
  destruct (report_on_recoverable_cells sample_parse sample_standard_lib
              sample_data_science sample_ml_framework sample_visualization
              [mk_code example_cell; mk_code "import numpy"] eq_refl)
    as (r & Hr & Hall & _ & _ & _ & Hml & _).
  exists r. split; [exact Hr |].
  split; [rewrite Hall; vm_compute; reflexivity |].
  rewrite Hml, Hall. vm_compute. reflexivity.
Defined.


Lemma extract_imports_propagates_ValueError_witness :
  sample_analyze [mk_code nul_source; mk_code "import numpy"]
  = raise (ValueError "source code string cannot contain null bytes").
Proof.
  apply (extract_imports_propagates_ValueError sample_parse sample_standard_lib
           sample_data_science sample_ml_framework sample_visualization
           "source code string cannot contain null bytes"
           [mk_code "import numpy"] eq_refl).
Defined.

Lemma structural_path_example (ast_parse : string → result node) :
  ast_parse example_cell = mret example_tree →
  _extract_imports ast_parse example_cell = mret {[ "pandas"; "sklearn" ]}.
Proof. intros Hp. unfold _extract_imports. rewrite Hp. vm_compute. reflexivity. Qed.

(** C2, at the failing input: on the cell of the specification the
    structural path yields pandas and sklearn, the fallback scanner keeps
    the alias clause and yields "pandas as pd" and sklearn. *)
Theorem fallback_keeps_alias_clause :
  imports_of_tree example_tree = {[ "pandas"; "sklearn" ]}
  ∧ Re.findall import_pattern example_cell = ["pandas as pd"]
  ∧ _extract_imports_regex example_cell = {[ "pandas as pd"; "sklearn" ]}
  ∧ ("pandas" ∉ _extract_imports_regex example_cell)
  ∧ _extract_imports_regex example_cell ≠ imports_of_tree example_tree.
Proof.
  assert (Ht : imports_of_tree example_tree = {[ "pandas"; "sklearn" ]})
    by (vm_compute; reflexivity).
  assert (Hx : _extract_imports_regex example_cell = {[ "pandas as pd"; "sklearn" ]})
    by (vm_compute; reflexivity).
  assert (Hn : "pandas" ∉ _extract_imports_regex example_cell).
  { rewrite Hx. intros [H | H]%elem_of_union; apply elem_of_singleton in H;
      discriminate. }
  split; [exact Ht |]. split; [vm_compute; reflexivity |].
  split; [exact Hx |]. split; [exact Hn |].
  intros Heq. apply Hn. rewrite Heq, Ht.
  apply elem_of_union. left. by apply elem_of_singleton.
Qed.

(** ** Further properties of the classifier and the parser *)

Lemma lower_char_idem (c : ascii) : lower_char (lower_char c) = lower_char c.
Proof. destruct c as [[] [] [] [] [] [] [] []]; vm_compute; reflexivity. Qed.

Lemma isspace_lower_char_eq (c : ascii) : isspace (lower_char c) = isspace c.
Proof. destruct c as [[] [] [] [] [] [] [] []]; vm_compute; reflexivity. Qed.

Lemma lower_idem (s : string) : lower (lower s) = lower s.
Proof.
  unfold lower. induction s as [|c s IH]; simpl; [done |].
  by rewrite lower_char_idem, IH.
Qed.

Lemma all_space_lower_eq (s : string) : all_space (lower s) = all_space s.
Proof.
  unfold lower. induction s as [|c s IH]; simpl; [done |].
  by rewrite isspace_lower_char_eq, IH.
Qed.

Lemma is_empty_strip (s : string) : is_empty (strip s) = all_space s.
Proof.
  destruct (all_space s) eqn:Ha.
  - by apply all_space_strip_empty.
  - destruct (is_empty (strip s)) eqn:He; [| done].
    apply strip_empty_all_space in He. congruence.
Qed.

(** X1: classification of a cell only looks at the lower-cased source: two
    sources that agree up to the case of their letters get the same
    category, as code cells and as markdown cells. *)
Theorem classification_case_insensitive (s1 s2 : string) :
  lower s1 = lower s2 →
  _categorize_code_cell s1 = _categorize_code_cell s2
  ∧ _categorize_markdown_cell s1 = _categorize_markdown_cell s2
  ∧ _categorize_code_cell (lower s1) = _categorize_code_cell s1
  ∧ _categorize_markdown_cell (lower s1) = _categorize_markdown_cell s1.
Proof.
  intros Hl.
  assert (Hb : ∀ s, is_empty (strip s) = all_space (lower s)).
  { intros s. by rewrite is_empty_strip, all_space_lower_eq. }
  unfold _categorize_code_cell, _categorize_markdown_cell.
  rewrite !Hb, !lower_idem, Hl. done.
Qed.

Lemma classification_case_insensitive_witness :
  _categorize_code_cell "Model.FIT(X, y)" = _categorize_code_cell "model.fit(x, Y)".
Proof.
  apply (classification_case_insensitive "Model.FIT(X, y)" "model.fit(x, Y)").
  reflexivity.
Defined.

(** X2: a cell is classified [empty] exactly when its source is empty or made
    of white space only. *)
Theorem empty_category_iff_blank (source : string) :
  (_categorize_code_cell source = "empty" ↔ all_space source = true)
  ∧ (_categorize_markdown_cell source = "empty" ↔ all_space source = true).
Proof.
  unfold _categorize_code_cell, _categorize_markdown_cell.
  rewrite is_empty_strip. destruct (all_space source); [done |].
  split; (split; [| discriminate]);
    repeat (match goal with
            | |- context [if ?b then _ else _] => destruct b
            end; try discriminate).
Qed.

Lemma lower_head (c : ascii) (s t : string) :
  String.prefix (String c t) (lower s) = true →
  isspace c = false → all_space s = false.
Proof.
  destruct s as [|a s]; [simpl; discriminate |].
  unfold lower. simpl map_chars. intros Hp Hc.
  apply prefix_head in Hp. simpl.
  by rewrite <- isspace_lower_char_eq, <- Hp, Hc.
Qed.

(** X3: a markdown cell that starts with a heading marker, or contains a
    double one, is never classified [documentation] or [empty]: it gets
    one of the heading categories. *)
Theorem heading_marker_category (source : string) :
  startswith "#" (lower source) || contains "##" (lower source) = true →
  _categorize_markdown_cell source ∈ heading_categories.
Proof.
  intros Hm.
  assert (Hb : is_empty (strip source) = false).
  { apply orb_prop in Hm as [Hs | Hc].
    - rewrite is_empty_strip. by apply (lower_head "#" source "").
    - by apply (contains_letter_not_blank "#" "#"). }
  unfold _categorize_markdown_cell, heading_categories. rewrite Hb, Hm.
  repeat (match goal with
          | |- context [if ?b then _ else _] => destruct b
          end; [set_solver |]).
  set_solver.
Qed.

Lemma heading_marker_category_witness :
  _categorize_markdown_cell "# Notes on the run" ∈ heading_categories.
Proof. apply (heading_marker_category "# Notes on the run"). reflexivity. Defined.

(** X4: the kernel summary: with a [kernelspec] the summary has the keys
    name, display_name and language and [language_info] is not looked at;
    without it, [language_info] gives name and version; without both the
    summary is empty.  Absent fields get the defaults of the code. *)
Theorem kernel_info_precedence (md : NotebookMetadata) :
  dom (_extract_kernel_info md)
  = match kernelspec md, language_info md with
    | Some _, _ => {[ "name"; "display_name"; "language" ]}
    | None, Some _ => {[ "name"; "version" ]}
    | None, None => ∅
    end
  ∧ _extract_kernel_info md !! "name"
    = match kernelspec md, language_info md with
      | Some ks, _ => Some (default "unknown" (ks_name ks))
      | None, Some li => Some (default "python" (li_name li))
      | None, None => None
      end
  ∧ _extract_kernel_info md !! "display_name"
    = (λ ks, default "unknown" (ks_display_name ks)) <$> kernelspec md
  ∧ _extract_kernel_info md !! "language"
    = (λ ks, default "python" (ks_language ks)) <$> kernelspec md
  ∧ _extract_kernel_info md !! "version"
    = match kernelspec md, language_info md with
      | None, Some li => Some (default "unknown" (li_version li))
      | _, _ => None
      end.
Proof.
  unfold _extract_kernel_info.
  destruct (kernelspec md) as [ks|]; [| destruct (language_info md) as [li|]];
    simpl.
  - split; [rewrite !dom_insert_L, dom_empty_L; set_solver |].
    by repeat split; map_lookup.
  - split; [rewrite !dom_insert_L, dom_empty_L; set_solver |].
    by repeat split; map_lookup.
  - by rewrite dom_empty_L, !lookup_empty.
Qed.

(** X6: parsing keeps the cells in document order with their text: the parsed
    cells carry, in order, the kinds (code when absent) and the normalized
    sources of the raw cells; execution outputs are kept for code cells
    only, and the notebook metadata is passed through. *)
Theorem parse_notebook_preserves_cells
    (load_json : string → string + RawNotebook) (path : string)
    (doc : RawNotebook) (nb : ParsedNotebook) :
  load_json path = inr doc →
  parse_notebook load_json path = mret nb →
  map cell_type (pn_cells nb)
  = map (λ c, default "code" (raw_cell_type c)) (default [] (nb_cells doc))
  ∧ map source (pn_cells nb)
    = map (λ c, normalize_source (default (SourceList []) (raw_source c)))
          (default [] (nb_cells doc))
  ∧ map outputs (pn_cells nb)
    = map (λ c, if String.eqb (default "code" (raw_cell_type c)) "code"
                then default [] (raw_outputs c) else [])
          (default [] (nb_cells doc))
  ∧ pn_metadata nb = default empty_metadata (nb_metadata doc).
Proof.
  intros Hl. unfold parse_notebook. rewrite Hl.
  destruct (negb _); simpl; [discriminate |].
  intros [= <-]. simpl. rewrite extract_cells_map, !map_map. done.
Qed.

Lemma parse_notebook_preserves_cells_witness :
  ∃ nb, parse_notebook (sample_load sample_notebook) "nb.ipynb" = mret nb
        ∧ map source (pn_cells nb) = ["import os" +:+ NL +:+ "x = 1"; "# Title"]
        ∧ map outputs (pn_cells nb) = [[]; []].
Proof.
  eexists. split; [reflexivity |].
  destruct (parse_notebook_preserves_cells (sample_load sample_notebook)
              "nb.ipynb" sample_notebook _ eq_refl eq_refl)
    as (_ & Hs & Ho & _).
  split; [exact Hs | exact Ho].
Defined.

(** ** Further properties of the code generator *)

(** X7: grouping is a partition of the cell sequence: the keys are the
    categories that occur, no group is empty, a group holds exactly the
    cells of its category, in document order, and every cell is in the
    group of its category. *)
Theorem categorize_cells_partition (cells : list Cell) :
  dom (_categorize_cells cells) = list_to_set (map category cells)
  ∧ (∀ c group, _categorize_cells cells !! c = Some group ↔
                group = cells_of c cells ∧ group ≠ [])
  ∧ (∀ c group, _categorize_cells cells !! c = Some group →
                sublist group cells
                ∧ ∀ cell, cell ∈ group ↔ cell ∈ cells ∧ category cell = c)
  ∧ (∀ cell, cell ∈ cells →
             ∃ group, _categorize_cells cells !! category cell = Some group
                      ∧ cell ∈ group).
Proof.
  assert (Hl : ∀ c group, _categorize_cells cells !! c = Some group ↔
                          group = cells_of c cells ∧ group ≠ []).
  { intros c group. rewrite categorize_cells_lookup. unfold entry.
    destruct (cells_of c cells) as [|x l] eqn:Hc.
    - split; [discriminate | by intros [-> ?]].
    - split; [by intros [= <-] | by intros [-> _]]. }
  assert (Hin : ∀ c cell, cell ∈ cells_of c cells ↔ cell ∈ cells ∧ category cell = c).
  { intros c cell. unfold cells_of. rewrite list_elem_of_filter. tauto. }
  split; [| split; [exact Hl | split]].
  - apply set_eq. intros c.
    rewrite elem_of_dom, elem_of_list_to_set, list_elem_of_fmap.
    split.
    + intros [group [-> Hne]%Hl].
      destruct (cells_of c cells) as [|x l] eqn:Hc; [done |].
      exists x. assert (Hx : x ∈ cells_of c cells) by (rewrite Hc; left).
      apply Hin in Hx as [? ?]. done.
    + intros (cell & -> & Hcell). exists (cells_of (category cell) cells).
      apply Hl. split; [done |]. intros He.
      assert (Hx : cell ∈ cells_of (category cell) cells) by by apply Hin.
      rewrite He in Hx. by apply elem_of_nil in Hx.
  - intros c group [-> _]%Hl. split; [apply sublist_filter | apply Hin].
  - intros cell Hcell. exists (cells_of (category cell) cells).
    assert (Hx : cell ∈ cells_of (category cell) cells) by by apply Hin.
    split; [| done]. apply Hl. split; [done |].
    intros He. rewrite He in Hx. by apply elem_of_nil in Hx.
Qed.

Lemma categorize_cells_partition_witness :
  ∃ group, _categorize_cells scenario !! "imports" = Some group
           ∧ mk_code "import numpy as np" ∈ group.
Proof.
  destruct (categorize_cells_partition scenario) as (_ & _ & _ & H).
  apply (H (mk_code "import numpy as np")). left.
Defined.

Lemma join_snoc (sep : string) (l : list string) (a : string) :
  join sep (l ++ [a])
  = match l with [] => a | _ => join sep l +:+ sep +:+ a end.
Proof.
  induction l as [|x l IH]; [done |].
  destruct l as [|y l]; [done |].
  change (join sep ((x :: y :: l) ++ [a]))
    with (x +:+ sep +:+ join sep ((y :: l) ++ [a])).
  rewrite IH.
  change (join sep (x :: y :: l)) with (x +:+ sep +:+ join sep (y :: l)).
  by rewrite !append_assoc.
Qed.

Lemma is_empty_append_cons (p : string) (c : ascii) (s : string) :
  is_empty (p +:+ String c s) = false.
Proof. by destruct p. Qed.

(** A file name that is one component is rendered behind the prefix of
    the directory. *)
Lemma path_div_component (dir name : string) :
  Pathlib.parse_parts name = {| Pathlib.root := ""; Pathlib.parts := [name] |} →
  path_div dir name = dir_prefix dir +:+ name.
Proof.
  intros Hn. unfold path_div, Pathlib.truediv, Pathlib.str, dir_prefix.
  rewrite Hn. simpl Pathlib.root. simpl Pathlib.parts. simpl is_empty.
  rewrite join_snoc.
  destruct name as [|c name]; [vm_compute in Hn; discriminate |].
  destruct (Pathlib.parts (Pathlib.Path dir)) as [|x l].
  - by rewrite is_empty_append_cons, append_empty_r.
  - rewrite <- !append_assoc, is_empty_append_cons. reflexivity.
Qed.

Lemma dir_prefix_ne (dir a b : string) :
  a ≠ b → dir_prefix dir +:+ a ≠ dir_prefix dir +:+ b.
Proof. intros Hne H. by apply Hne, (inj (String.append (dir_prefix dir))). Qed.

(** X8: which files a run produces: main.py and config.py always,
    functions.py exactly when some cell is a function definition,
    training.py exactly when some cell is model training, and nothing
    else; each name is recorded with the path it was written to, which
    [pathlib] renders as the normalised directory followed by the name:
    for the directory ./converted_project the path of main.py is
    converted_project/main.py. *)
Theorem generated_files_names (nb : ParsedNotebook) (dir : string)
    (fs : gmap string string) :
  let recorded := generated_files (generate_python_files nb dir fs) in
  recorded !! "main.py" = Some (path_div dir "main.py")
  ∧ recorded !! "config.py" = Some (path_div dir "config.py")
  ∧ recorded !! "functions.py"
    = match cells_of "function_definitions" (pn_cells nb) with
      | [] => None
      | _ => Some (path_div dir "functions.py")
      end
  ∧ recorded !! "training.py"
    = match cells_of "model_training" (pn_cells nb) with
      | [] => None
      | _ => Some (path_div dir "training.py")
      end
  ∧ dom recorded ⊆ {[ "main.py"; "functions.py"; "training.py"; "config.py" ]}
  ∧ (∀ name, name ∈ ["main.py"; "functions.py"; "training.py"; "config.py"] →
             path_div dir name = dir_prefix dir +:+ name)
  ∧ path_div "./converted_project" "main.py" = "converted_project/main.py".
Proof.
  unfold generate_python_files, _generate_config_files.
  rewrite !categorize_cells_lookup.
  assert (Hp : ∀ name,
            name ∈ ["main.py"; "functions.py"; "training.py"; "config.py"] →
            path_div dir name = dir_prefix dir +:+ name).
  { intros name Hin.
    repeat (apply elem_of_cons in Hin as [-> | Hin];
            [by apply path_div_component |]).
    by apply elem_of_nil in Hin. }
  destruct (cells_of "function_definitions" (pn_cells nb));
    destruct (cells_of "model_training" (pn_cells nb));
    unfold write_file; simpl;
    (split; [by map_lookup |]); (split; [by map_lookup |]);
    (split; [by map_lookup |]); (split; [by map_lookup |]);
    (split; [| split; [exact Hp | reflexivity]]);
    rewrite !dom_insert_L, dom_empty_L; intros x;
    rewrite !elem_of_union, !elem_of_singleton, elem_of_empty; tauto.
Qed.

(** X9: what a run writes, a file being named by the path [pathlib] renders
    for it: main.py holds the main module, functions.py and training.py,
    when produced, the flat modules of their cells, config.py the fixed
    configuration, whatever these files held before; no other path is
    written to. *)
Theorem generated_files_contents (nb : ParsedNotebook) (dir : string)
    (fs : gmap string string) :
  let written := files (generate_python_files nb dir fs) in
  written !! path_div dir "main.py"
  = Some (_generate_main_script (_categorize_cells (pn_cells nb)))
  ∧ written !! path_div dir "config.py" = Some config_content
  ∧ written !! path_div dir "functions.py"
    = match cells_of "function_definitions" (pn_cells nb) with
      | [] => fs !! path_div dir "functions.py"
      | group => Some (_generate_functions_module group)
      end
  ∧ written !! path_div dir "training.py"
    = match cells_of "model_training" (pn_cells nb) with
      | [] => fs !! path_div dir "training.py"
      | group => Some (_generate_training_module group)
      end
  ∧ (∀ path,
       path ∉ map (path_div dir) ["main.py"; "functions.py"; "training.py"; "config.py"] →
       written !! path = fs !! path).
Proof.
  assert (Hne : ∀ a b, a ≠ b → dir_prefix dir +:+ a ≠ dir_prefix dir +:+ b)
    by (intros; by apply dir_prefix_ne).
  unfold generate_python_files, _generate_config_files.
  rewrite !categorize_cells_lookup. simpl map.
  rewrite (path_div_component dir "main.py" eq_refl),
          (path_div_component dir "functions.py" eq_refl),
          (path_div_component dir "training.py" eq_refl),
          (path_div_component dir "config.py" eq_refl).
  destruct (cells_of "function_definitions" (pn_cells nb)) as [|f fl];
    destruct (cells_of "model_training" (pn_cells nb)) as [|t tl];
    unfold write_file; simpl;
    rewrite ?(path_div_component dir "main.py" eq_refl),
            ?(path_div_component dir "functions.py" eq_refl),
            ?(path_div_component dir "training.py" eq_refl),
            ?(path_div_component dir "config.py" eq_refl);
    (split; [by rewrite ?(lookup_insert_ne _ (dir_prefix dir +:+ _)
                            (dir_prefix dir +:+ "main.py"))
                by (by apply Hne); rewrite lookup_insert_eq |]);
    (split; [by rewrite lookup_insert_eq |]);
    (split; [by rewrite ?(lookup_insert_ne _ (dir_prefix dir +:+ _)
                            (dir_prefix dir +:+ "functions.py"))
                by (by apply Hne); rewrite ?lookup_insert_eq |]);
    (split; [by rewrite ?(lookup_insert_ne _ (dir_prefix dir +:+ _)
                            (dir_prefix dir +:+ "training.py"))
                by (by apply Hne); rewrite ?lookup_insert_eq |]);
    intros path Hp;
    rewrite ?lookup_insert_ne; try done;
    intros <-; apply Hp; set_solver.
Qed.

Lemma generated_files_contents_witness :
  let written :=
    files (generate_python_files (sample_parsed scenario) "./converted_project"
             {[ "converted_project/main.py" := "old";
                "converted_project/notes.txt" := "keep" ]}) in
  written !! "converted_project/main.py"
  = Some (_generate_main_script (_categorize_cells scenario))
  ∧ written !! "converted_project/notes.txt" = Some "keep".
Proof.
  destruct (generated_files_contents (sample_parsed scenario) "./converted_project"
              {[ "converted_project/main.py" := "old";
                 "converted_project/notes.txt" := "keep" ]})
    as (Hm & _ & _ & _ & H).
  split; [exact Hm |].
  rewrite H; [reflexivity |].
  vm_compute. intros Hin.
  repeat (apply elem_of_cons in Hin as [Hin | Hin]; [discriminate |]).
  by apply elem_of_nil in Hin.
Defined.

(** X10: running the generator again on its own output changes nothing. *)
Theorem generate_python_files_idempotent (nb : ParsedNotebook) (dir : string)
    (fs : gmap string string) :
  generate_python_files nb dir (files (generate_python_files nb dir fs))
  = generate_python_files nb dir fs.
Proof.
  unfold generate_python_files, _generate_config_files.
  destruct (_categorize_cells (pn_cells nb) !! "function_definitions");
    destruct (_categorize_cells (pn_cells nb) !! "model_training");
    unfold write_file; simpl; f_equal;
    apply map_eq; intros path; rewrite !lookup_insert;
    repeat case_decide; done.
Qed.

Lemma cells_of_filter (cats : list string) (c : string) (cells : list Cell) :
  c ∈ cats →
  cells_of c (filter (λ cell, category cell ∈ cats) cells) = cells_of c cells.
Proof.
  intros Hc. unfold cells_of. induction cells as [|x cells IH]; [done |].
  rewrite (filter_cons (λ cell, category cell ∈ cats)).
  destruct (decide (category x ∈ cats)) as [Hx | Hx].
  - rewrite !(filter_cons (λ cell, category cell = c)).
    destruct (decide (category x = c)); by rewrite IH.
  - rewrite (filter_cons_False (λ cell, category cell = c) x cells);
      [exact IH | intros Heq; apply Hx; by rewrite Heq].
Qed.

(** X11: only the cells classified imports, function_definitions,
    data_processing, model_training, visualization or general_code reach a
    generated file: removing every other cell (testing and empty code
    cells, markdown cells, cells of other kinds) from the notebook leaves
    the files written the same. *)
Theorem generation_ignores_other_cells (nb : ParsedNotebook) (dir : string)
    (fs : gmap string string) :
  generate_python_files nb dir fs
  = generate_python_files
      {| pn_metadata := pn_metadata nb;
         pn_cells := filter (λ cell, category cell ∈ emitted_categories) (pn_cells nb);
         pn_kernel_info := pn_kernel_info nb |}
      dir fs.
Proof.
  assert (Hc : ∀ c, c ∈ emitted_categories →
    cells_of c (filter (λ cell, category cell ∈ emitted_categories) (pn_cells nb))
    = cells_of c (pn_cells nb))
    by (intros c Hin; by apply cells_of_filter).
  unfold generate_python_files. simpl pn_cells.
  rewrite !main_script_layout, !categorize_cells_lookup.
  unfold main_layout, imports_block, section_block, execution_categories.
  simpl flat_map.
  rewrite !Hc by (unfold emitted_categories, execution_categories; set_solver).
  reflexivity.
Qed.

Lemma foldl_snoc_pair {A B} (f g : A → B) (init : list B) (l : list A) :
  foldl (λ acc x, acc ++ [f x; g x]) init l
  = init ++ flat_map (λ x, [f x; g x]) l.
Proof.
  revert init. induction l as [|x l IH]; intros init; simpl.
  - by rewrite app_nil_r.
  - rewrite IH, <- app_assoc. reflexivity.
Qed.

Lemma prefix_append (p t : string) : String.prefix p (p +:+ t) = true.
Proof.
  induction p as [|c p IH]; [by destruct t |].
  rewrite append_cons. simpl. by destruct (ascii_dec c c).
Qed.

Lemma prefix_append_r (p a b : string) :
  String.prefix p a = true → String.prefix p (a +:+ b) = true.
Proof.
  revert a. induction p as [|c p IH]; intros a; [by destruct (a +:+ b) |].
  destruct a as [|x a]; [simpl; discriminate |].
  rewrite append_cons. simpl. destruct (ascii_dec c x); [apply IH | done].
Qed.

Lemma contains_refl (p : string) : contains p p = true.
Proof.
  destruct p as [|c p]; [reflexivity |].
  change (contains (String c p) (String c p))
    with (String.prefix (String c p) (String c p) || contains (String c p) p).
  apply orb_true_intro. left.
  rewrite <- (append_empty_r (String c p)) at 2. apply prefix_append.
Qed.

Lemma contains_unfold (p : string) (c : ascii) (s : string) :
  contains p (String c s) = String.prefix p (String c s) || contains p s.
Proof. reflexivity. Qed.

Lemma contains_append_r (p a b : string) :
  contains p a = true → contains p (a +:+ b) = true.
Proof.
  induction a as [|c a IH].
  - destruct p as [|x p]; [| simpl; discriminate].
    intros _. by destruct b.
  - rewrite append_cons, !contains_unfold.
    intros [H | H]%orb_prop; apply orb_true_intro.
    + left. rewrite <- append_cons. by apply prefix_append_r.
    + right. by apply IH.
Qed.

Lemma contains_append_l (p a b : string) :
  contains p b = true → contains p (a +:+ b) = true.
Proof.
  intros H. induction a as [|c a IH]; [done |].
  rewrite append_cons, contains_unfold. apply orb_true_intro. by right.
Qed.

(** Every part of a joined text occurs in it. *)
Lemma contains_join (sep : string) (parts : list string) (p : string) :
  p ∈ parts → contains p (join sep parts) = true.
Proof.
  induction parts as [|q rest IH]; [by intros ?%elem_of_nil |].
  intros [-> | Hin]%elem_of_cons.
  - destruct rest as [|r rest]; [apply contains_refl |].
    change (join sep (q :: r :: rest)) with (q +:+ sep +:+ join sep (r :: rest)).
    apply contains_append_r, contains_refl.
  - destruct rest as [|r rest]; [by apply elem_of_nil in Hin |].
    change (join sep (q :: r :: rest)) with (q +:+ sep +:+ join sep (r :: rest)).
    by apply contains_append_l, contains_append_l, IH.
Qed.

(** X12: the function library and the training module are flat: after a
    three-line header, each cell's source as it is, followed by an empty
    line, in the order given; nothing is indented, and every source
    occurs verbatim in the text.  The two differ in their header only. *)
Theorem flat_module_layout (cells : list Cell) :
  _generate_functions_module cells
  = join NL ([DQ3; "Utility functions generated from Jupyter notebook"; DQ3; NL]
             ++ flat_map (λ cell, [source cell; ""]) cells)
  ∧ _generate_training_module cells
    = join NL ([DQ3; "Training module for machine learning models"; DQ3; NL]
               ++ flat_map (λ cell, [source cell; ""]) cells)
  ∧ (∀ cell, cell ∈ cells →
       contains (source cell) (_generate_functions_module cells) = true
       ∧ contains (source cell) (_generate_training_module cells) = true).
Proof.
  assert (Hf : ∀ header,
    foldl (λ lines cell, lines ++ [source cell; ""]) header cells
    = header ++ flat_map (λ cell, [source cell; ""]) cells)
    by (intros; apply (foldl_snoc_pair source (λ _, ""))).
  unfold _generate_functions_module, _generate_training_module.
  rewrite !Hf. split; [done |]. split; [done |].
  intros cell Hin.
  assert (Hm : ∀ header, source cell ∈ header ++ flat_map (λ cell, [source cell; ""]) cells).
  { intros header. apply elem_of_app. right.
    apply list_elem_of_In, in_flat_map. exists cell.
    split; [by apply list_elem_of_In | by left]. }
  split; apply contains_join, Hm.
Qed.

Lemma flat_module_layout_witness :
  contains "def f(x): return x+1"
    (_generate_functions_module (cells_of "function_definitions" scenario)) = true.
Proof.
  destruct (flat_module_layout (cells_of "function_definitions" scenario))
    as (_ & _ & H).
  apply (H (mk_code "def f(x): return x+1")). vm_compute. left.
Defined.

(** X13: the main module carries the source of every import cell verbatim and
    the indented source of every cell of an execution category. *)
Theorem main_script_contains_sources (cells : list Cell) (cell : Cell) :
  cell ∈ cells →
  (category cell = "imports" →
   contains (source cell) (_generate_main_script (_categorize_cells cells)) = true)
  ∧ (category cell ∈ execution_categories →
     contains (indent_code (source cell))
              (_generate_main_script (_categorize_cells cells)) = true).
Proof.
  intros Hin. rewrite main_script_layout. unfold main_layout.
  split.
  - intros Hc. apply contains_join.
    apply elem_of_app. right. apply elem_of_app. left.
    unfold imports_block.
    assert (Hx : cell ∈ cells_of "imports" cells)
      by (unfold cells_of; by apply list_elem_of_filter).
    destruct (cells_of "imports" cells) as [|x l] eqn:He;
      [by apply elem_of_nil in Hx |].
    apply elem_of_app. left. by apply list_elem_of_fmap_2.
  - intros Hc. apply contains_join.
    apply elem_of_app. right. apply elem_of_app. right.
    apply elem_of_app. right. apply elem_of_app. left.
    apply list_elem_of_In, in_flat_map. exists (category cell).
    split; [by apply list_elem_of_In |]. apply list_elem_of_In.
    unfold section_block.
    assert (Hx : cell ∈ cells_of (category cell) cells)
      by (unfold cells_of; by apply list_elem_of_filter).
    destruct (cells_of (category cell) cells) as [|x l] eqn:He;
      [by apply elem_of_nil in Hx |].
    apply elem_of_cons. right. apply elem_of_app. left.
    by apply (list_elem_of_fmap_2 (λ cell, indent_code (source cell))).
Qed.

Lemma main_script_contains_sources_witness :
  contains "import numpy as np" (_generate_main_script (_categorize_cells scenario)) = true.
Proof.
  destruct (main_script_contains_sources scenario (mk_code "import numpy as np"))
    as [H _]; [vm_compute; left | ].
  apply H. reflexivity.
Defined.

(** ** Further properties of the dependency analyzer *)

Lemma first_field_no_sep (sep : ascii) (s : string) :
  has_char sep (first_field sep s) = false.
Proof.
  unfold first_field. destruct (split_parts sep s) as [_ Hall].
  destruct (split sep s) as [|h t]; [done |].
  by apply Forall_cons in Hall as [? _].
Qed.

Lemma foldl_union_singleton {A} (g : A → string) (l : list A) (X : gset string)
    (x : string) :
  x ∈ foldl (λ acc a, acc ∪ {[ g a ]}) X l ↔ x ∈ X ∨ ∃ a, a ∈ l ∧ x = g a.
Proof.
  revert X. induction l as [|a l IH]; intros X; simpl.
  - split; [by left | intros [? | (a & Ha & _)]; [done | by apply elem_of_nil in Ha]].
  - rewrite IH, elem_of_union, elem_of_singleton. split.
    + intros [[? | ->] | (b & Hb & ->)].
      * by left.
      * right. exists a. split; [left | done].
      * right. exists b. split; [by right | done].
    + intros [? | (b & [-> | Hb]%elem_of_cons & ->)].
      * by left; left.
      * by left; right.
      * right. by exists b.
Qed.

Lemma visit_membership (X : gset string) (n : node) (x : string) :
  x ∈ visit X n ↔ x ∈ X ∨ declares n x.
Proof.
  destruct n as [names | [m|] names level | children]; simpl.
  - apply foldl_union_singleton.
  - destruct m as [|c m]; simpl.
    + split; [by left | intros [? | [? _]]; done].
    + rewrite elem_of_union, elem_of_singleton.
      split; (intros [? | H]; [by left | right]); [done | by destruct H].
  - tauto.
  - tauto.
Qed.

Lemma foldl_visit_membership (nodes : list node) (X : gset string) (x : string) :
  x ∈ foldl visit X nodes ↔ x ∈ X ∨ ∃ n, n ∈ nodes ∧ declares n x.
Proof.
  revert X. induction nodes as [|n nodes IH]; intros X; simpl.
  - split; [by left | intros [? | (n & Hn & _)]; [done | by apply elem_of_nil in Hn]].
  - rewrite IH, visit_membership. split.
    + intros [[? | Hd] | (m & Hm & Hd)].
      * by left.
      * right. exists n. split; [left | done].
      * right. exists m. split; [by right | done].
    + intros [? | (m & [-> | Hm]%elem_of_cons & Hd)].
      * by left; left.
      * by left; right.
      * right. by exists m.
Qed.

Lemma walk_child (children : list node) (child n : node) :
  child ∈ children → n ∈ walk child → n ∈ walk (Other children).
Proof.
  intros Hc Hn. simpl. apply elem_of_cons. right.
  apply list_elem_of_In, in_flat_map. exists child.
  split; by apply list_elem_of_In.
Qed.

Lemma imports_of_tree_membership (tree : node) (x : string) :
  x ∈ imports_of_tree tree ↔ ∃ n, n ∈ walk tree ∧ declares n x.
Proof.
  unfold imports_of_tree. rewrite foldl_visit_membership.
  split; [intros [H | H]; [by apply elem_of_empty in H | done] | by right].
Qed.

(** X14: the structural path collects exactly the top-level segment of every
    name imported by an import statement anywhere in the tree, and of the
    module of every from-import that names a module; statements nested in
    blocks count like those at top level. *)
Theorem structural_path_membership (tree : node) (x : string) :
  (x ∈ imports_of_tree tree ↔ ∃ n, n ∈ walk tree ∧ declares n x)
  ∧ (∀ children, tree ∈ children →
       imports_of_tree tree ⊆ imports_of_tree (Other children)).
Proof.
  split; [apply imports_of_tree_membership |].
  intros children Hc y (n & Hn & Hd)%imports_of_tree_membership.
  apply imports_of_tree_membership.
  exists n. split; [by eapply walk_child | done].
Qed.

Lemma structural_path_membership_witness :
  "os" ∈ imports_of_tree nested_tree.
Proof.
  destruct (structural_path_membership
              (Other [ Other [ Import [Alias "os.path" None] ];
                       ImportFrom None [Alias "sibling" None] 1 ]) "os")
    as [Hm Hsub].
  apply (Hsub [ Other [ Other [ Import [Alias "os.path" None] ];
                        ImportFrom None [Alias "sibling" None] 1 ];
                ImportFrom (Some "numpy.linalg") [Alias "norm" None] 0 ]);
    [left |].
  apply Hm. exists (Import [Alias "os.path" None]).
  split; [vm_compute; right; right; left |].
  exists (Alias "os.path" None). split; [left | reflexivity].
Defined.

Lemma add_all_membership (xs : list string) (X : gset string) (x : string) :
  x ∈ add_all xs X ↔ x ∈ X ∨ x ∈ xs.
Proof.
  unfold add_all. rewrite (foldl_union_singleton id). split.
  - intros [? | (a & Ha & ->)]; [by left | by right].
  - intros [? | ?]; [by left | right; by exists x].
Qed.

Lemma regex_membership (code x : string) :
  x ∈ _extract_imports_regex code ↔
  (∃ m lib, m ∈ Re.findall import_pattern code ∧ lib ∈ split "," m
            ∧ x = first_field "." (strip lib))
  ∨ (∃ m, m ∈ Re.findall from_pattern code ∧ x = first_field "." m).
Proof.
  unfold _extract_imports_regex.
  rewrite elem_of_union, elem_of_list_to_set, list_elem_of_fmap.
  assert (Hf : ∀ ms X,
    x ∈ foldl (λ acc m, add_all (map (λ lib, first_field "." (strip lib))
                                     (split "," m)) acc) X ms
    ↔ x ∈ X ∨ ∃ m lib, m ∈ ms ∧ lib ∈ split "," m
                       ∧ x = first_field "." (strip lib)).
  { induction ms as [|m ms IH]; intros X; simpl.
    - split; [by left |].
      intros [? | (m & lib & Hm & _)]; [done | by apply elem_of_nil in Hm].
    - rewrite IH, add_all_membership, list_elem_of_fmap. split.
      + intros [[? | (lib & -> & Hl)] | (m' & lib & Hm & Hl & ->)].
        * by left.
        * right. exists m, lib. split; [left | done].
        * right. exists m', lib. split; [by right | done].
      + intros [? | (m' & lib & [-> | Hm]%elem_of_cons & Hl & ->)].
        * by left; left.
        * left; right. by exists lib.
        * right. by exists m', lib. }
  rewrite Hf. split.
  - intros [[H | H] | (m & -> & Hm)];
      [by apply elem_of_empty in H | by left | right; by exists m].
  - intros [H | (m & Hm & ->)]; [left; by right | right; by exists m].
Qed.

(** X15: no identifier the analyzer reports contains a dot: both extraction
    paths keep only the first segment of a dotted name, so this holds for
    every set they return and for every report. *)
Theorem identifiers_have_no_dot
    (ast_parse : string → result node) (is_std is_ds is_ml is_vis : string → bool) :
  (∀ tree lib, lib ∈ imports_of_tree tree → has_char "." lib = false)
  ∧ (∀ code lib, lib ∈ _extract_imports_regex code → has_char "." lib = false)
  ∧ (∀ code imports lib,
       _extract_imports ast_parse code = mret imports →
       lib ∈ imports → has_char "." lib = false)
  ∧ (∀ cells r lib,
       analyze_dependencies ast_parse is_std is_ds is_ml is_vis cells = mret r →
       lib ∈ all_dependencies r → has_char "." lib = false).
Proof.
  assert (Ht : ∀ tree lib, lib ∈ imports_of_tree tree → has_char "." lib = false).
  { intros tree lib (n & _ & Hd)%imports_of_tree_membership.
    destruct n as [names | [m|] names level | children]; simpl in Hd; try done.
    - destruct Hd as (a & _ & ->). apply first_field_no_sep.
    - destruct Hd as [_ ->]. apply first_field_no_sep. }
  assert (Hr : ∀ code lib, lib ∈ _extract_imports_regex code → has_char "." lib = false).
  { intros code lib [(m & l & _ & _ & ->) | (m & _ & ->)]%regex_membership;
      apply first_field_no_sep. }
  assert (He : ∀ code imports lib,
    _extract_imports ast_parse code = mret imports →
    lib ∈ imports → has_char "." lib = false).
  { intros code imports lib. unfold _extract_imports, try_except_SyntaxError.
    destruct (ast_parse code) as [[]|tree]; simpl; intros [= <-]; [| apply Ht].
    rewrite (left_id_L ∅ (∪)). apply Hr. }
  split; [exact Ht |]. split; [exact Hr |]. split; [exact He |].
  intros cells r lib Hr' Hin.
  pose proof (analyze_returns _ _ _ _ _ _ _ Hr') as Ha.
  rewrite (analyze_analyzable _ _ _ _ _ _ Ha) in Hr'. injection Hr' as <-.
  simpl in Hin. apply elem_of_union_list in Hin as (X & HX & Hin).
  apply list_elem_of_fmap in HX as (cell & -> & _).
  unfold cell_imports in Hin.
  destruct (String.eqb (cell_type cell) "code"); [| by apply elem_of_empty in Hin].
  destruct (_extract_imports ast_parse (source cell)) as [e|imports] eqn:Hx;
    [by apply elem_of_empty in Hin |].
  by eapply He.
Qed.

Lemma identifiers_have_no_dot_witness :
  has_char "." "os" = false.
Proof.
  destruct (identifiers_have_no_dot sample_parse sample_standard_lib
              sample_data_science sample_ml_framework sample_visualization)
    as (Ht & _).
  apply (Ht nested_tree).
  apply (bool_decide_unpack ("os" ∈ imports_of_tree nested_tree)).
  vm_compute. exact I.
Defined.

Section AnalyzerComposition.

Variable ast_parse : string → result node.
Variables is_std is_ds is_ml is_vis : string → bool.

Abbreviation analyze' := (analyze_dependencies ast_parse is_std is_ds is_ml is_vis).

Abbreviation collect' cells acc :=
  (for_each cells
     (λ (all_imports : gset string) cell,
        if String.eqb (cell_type cell) "code" then
          imports ← _extract_imports ast_parse (source cell);
          mret (all_imports ∪ imports)
        else mret all_imports) acc).

Lemma collect_code_only (cells : list Cell) (acc : gset string) :
  collect' cells acc
  = collect' (filter (λ cell, cell_type cell = "code") cells) acc.
Proof.
  revert acc. induction cells as [|c cells IH]; intros acc; [done |].
  rewrite filter_cons. destruct (decide (cell_type c = "code")) as [Hc | Hc].
  - simpl. rewrite Hc. simpl.
    destruct (_extract_imports ast_parse (source c)); simpl; [done | apply IH].
  - simpl. apply String.eqb_neq in Hc. rewrite Hc. simpl. apply IH.
Qed.

(** X16: only code cells are analysed: a markdown cell, or a cell of any other
    kind, has no influence on the outcome, whatever its text; the
    analysis of a notebook is the analysis of its code cells. *)
Theorem analysis_ignores_other_kinds (cells : list Cell) :
  analyze' cells = analyze' (filter (λ cell, cell_type cell = "code") cells).
Proof. unfold analyze_dependencies. by rewrite collect_code_only. Qed.

Lemma collect_app (cells cells' : list Cell) (acc : gset string) :
  collect' (cells ++ cells') acc
  = collect' cells acc ≫= (λ acc', collect' cells' acc').
Proof.
  revert acc. induction cells as [|c cells IH]; intros acc; [done |].
  simpl. destruct (String.eqb (cell_type c) "code"); simpl; [| apply IH].
  destruct (_extract_imports ast_parse (source c)); simpl; [done | apply IH].
Qed.

(** X17: the first exception ends the analysis: when the cells before a code
    cell are analysed without exception and [ast.parse] raises on that
    cell anything but [SyntaxError], the analysis of the whole sequence
    raises this exception, whatever cells follow. *)
Theorem analysis_raises_first_failure
    (before after : list Cell) (cell : Cell) (e : exception) :
  analyzable ast_parse before = true →
  cell_type cell = "code" →
  ast_parse (source cell) = raise e →
  e ≠ SyntaxError →
  analyze' (before ++ cell :: after) = raise e.
Proof.
  intros Ha Hc Hp He. unfold analyze_dependencies.
  rewrite collect_app, (collect_analyzable _ _ _ Ha). simpl.
  rewrite Hc. simpl. by rewrite (extract_imports_raises _ _ _ Hp He).
Qed.

(** X18: reports compose: if two cell sequences are analysed without
    exception, so is their concatenation, its identifier set is the union
    of the two sets and each of its categories is the union of the two
    categories of that name. *)
Theorem analysis_of_concatenation
    (cells cells' : list Cell) (r r' : DependencyReport) :
  analyze' cells = mret r →
  analyze' cells' = mret r' →
  ∃ r'', analyze' (cells ++ cells') = mret r''
         ∧ all_dependencies r'' = all_dependencies r ∪ all_dependencies r'
         ∧ ∀ name libs libs',
             categorized r !! name = Some libs →
             categorized r' !! name = Some libs' →
             categorized r'' !! name = Some (libs ∪ libs').
Proof.
  intros Hr Hr'.
  pose proof (analyze_returns _ _ _ _ _ _ _ Hr) as Ha.
  pose proof (analyze_returns _ _ _ _ _ _ _ Hr') as Ha'.
  rewrite (analyze_analyzable _ _ _ _ _ _ Ha) in Hr. injection Hr as <-.
  rewrite (analyze_analyzable _ _ _ _ _ _ Ha') in Hr'. injection Hr' as <-.
  eexists. split.
  { apply analyze_analyzable. by rewrite analyzable_app, Ha, Ha'. }
  simpl. rewrite map_app, union_list_app_L. split; [done |].
  intros name libs libs' Hl Hl'.
  repeat (apply lookup_insert_Some in Hl as [[<- <-] | [? Hl]];
          [rewrite lookup_insert_eq in Hl'; injection Hl' as <-;
           rewrite lookup_insert_eq, filter_union_L; [done | apply _] |
           rewrite lookup_insert_ne in Hl' by done;
           rewrite lookup_insert_ne by done]).
  by rewrite lookup_empty in Hl.
Qed.

End AnalyzerComposition.

Lemma analysis_raises_first_failure_witness :
  sample_analyze [mk_code "import numpy"; mk_code nul_source; mk_code example_cell]
  = raise (ValueError "source code string cannot contain null bytes").
Proof.
  apply (analysis_raises_first_failure sample_parse sample_standard_lib
           sample_data_science sample_ml_framework sample_visualization
           [mk_code "import numpy"] [mk_code example_cell] (mk_code nul_source)
           (ValueError "source code string cannot contain null bytes")
           eq_refl eq_refl eq_refl).
  discriminate.
Defined.

Lemma analysis_of_concatenation_witness :
  ∃ r'', sample_analyze ([mk_code "import numpy"] ++ [mk_code example_cell]) = mret r''
         ∧ all_dependencies r'' = {[ "numpy" ]} ∪ {[ "pandas"; "sklearn" ]}.
Proof.
  destruct (analysis_of_concatenation sample_parse sample_standard_lib
              sample_data_science sample_ml_framework sample_visualization
              [mk_code "import numpy"] [mk_code example_cell] _ _ eq_refl eq_refl)
    as (r'' & Hr & Hall & _).
  exists r''. split; [exact Hr |]. rewrite Hall. vm_compute. reflexivity.
Defined.

(** ** The fallback scanner *)

Lemma eat_spec (l : string) (prev : option ascii) (s : string)
    (prev' : option ascii) (s' : string) :
  Re.eat l prev s = Some (prev', s') → s = l +:+ s'.
Proof.
  revert prev s. induction l as [|a l IH]; intros prev s; simpl.
  - by intros [= _ ->].
  - destruct s as [|b s]; [discriminate |].
    destruct (Ascii.eqb a b) eqn:Hab; [| discriminate].
    apply Ascii.eqb_eq in Hab as ->. intros H%IH.
    by rewrite append_cons, <- H.
Qed.

(** A repetition hands to its continuation a split of the text. *)
Lemma greedy_split {R} (cls : ascii → bool)
    (k : string → option ascii → string → option R)
    (prev : option ascii) (s : string) (r : R) :
  Re.greedy cls k prev s = Some r →
  ∃ taken prev' s', k taken prev' s' = Some r ∧ s = taken +:+ s'.
Proof.
  revert k prev. induction s as [|c s IH]; intros k prev; simpl.
  - intros H. by exists "", prev, "".
  - destruct (cls c).
    + destruct (Re.greedy cls (λ taken, k (String c taken)) (Some c) s) as [r'|] eqn:Hg.
      * intros [= ->]. apply IH in Hg as (taken & prev' & s' & Hk & ->).
        by exists (String c taken), prev', s'.
      * intros H. by exists "", prev, (String c s).
    + intros H. by exists "", prev, (String c s).
Qed.

(** A match needs every literal of the pattern to occur in the text. *)
Lemma match_here_lit (l : string) (p : list Re.item) (prev : option ascii)
    (cap s : string) (res : string * string) :
  Re.match_here p prev cap s = Some res →
  Re.Lit l ∈ p → contains l s = true.
Proof.
  revert prev cap s.
  induction p as [|i p IH]; intros prev cap s Hm Hin;
    [by apply elem_of_nil in Hin |].
  assert (Hrest : ∀ taken prev' cap' s',
    s = taken +:+ s' → Re.match_here p prev' cap' s' = Some res →
    Re.Lit l ∈ p → contains l s = true).
  { intros taken prev' cap' s' -> Hm' Hin'.
    apply contains_append_l. by eapply IH. }
  destruct i as [| l0 | cls | cls | cls]; simpl in Hm.
  - destruct (Re.at_line_start prev); [| discriminate].
    apply elem_of_cons in Hin as [[=] | Hin]. by eapply (Hrest "").
  - destruct (Re.eat l0 prev s) as [[prev' s']|] eqn:He; [| discriminate].
    apply eat_spec in He as ->.
    apply elem_of_cons in Hin as [[= ->] | Hin].
    + apply contains_append_r, contains_refl.
    + by eapply Hrest.
  - apply greedy_split in Hm as (taken & prev' & s' & Hk & ->).
    apply elem_of_cons in Hin as [[=] | Hin]. by eapply Hrest.
  - apply greedy_split in Hm as (taken & prev' & s' & Hk & ->).
    unfold Re.nonempty in Hk. destruct (is_empty taken); [discriminate |].
    apply elem_of_cons in Hin as [[=] | Hin]. by eapply Hrest.
  - apply greedy_split in Hm as (taken & prev' & s' & Hk & ->).
    unfold Re.nonempty in Hk. destruct (is_empty taken); [discriminate |].
    apply elem_of_cons in Hin as [[=] | Hin]. by eapply Hrest.
Qed.

Lemma scan_without_literal (l : string) (p : list Re.item) :
  Re.Lit l ∈ p →
  ∀ s prev skip, contains l s = false → Re.scan p prev skip s = [].
Proof.
  intros Hin. induction s as [|c s IH]; intros prev skip Hc.
  - simpl. destruct skip; [| done].
    destruct (Re.match_here p prev "" "") as [res|] eqn:Hm; [| done].
    pose proof (match_here_lit _ _ _ _ _ _ Hm Hin). congruence.
  - rewrite contains_unfold in Hc. apply orb_false_elim in Hc as [Hp Hc].
    assert (Hnone : match skip with
                    | 0 => Re.match_here p prev "" (String c s)
                    | S _ => None
                    end = None).
    { destruct skip; [| done].
      destruct (Re.match_here p prev "" (String c s)) as [res|] eqn:Hm; [| done].
      pose proof (match_here_lit _ _ _ _ _ _ Hm Hin) as Hl.
      rewrite contains_unfold, Hp, Hc in Hl. discriminate. }
    change (Re.scan p prev skip (String c s))
      with (match match skip with
                  | 0 => Re.match_here p prev "" (String c s)
                  | S _ => None
                  end with
            | Some (cap, rest) =>
                cap :: Re.scan p (Some c)
                         (String.length (String c s) - String.length rest - 1) s
            | None => Re.scan p (Some c) (pred skip) s
            end).
    rewrite Hnone. by apply IH.
Qed.

(** X19: the fallback scanner reports nothing for a text in which the word
    import, in lower case, does not occur; with such a source a cell that
    does not parse contributes no identifier. *)
Theorem fallback_needs_import_keyword (code : string) :
  contains "import" code = false →
  Re.findall import_pattern code = []
  ∧ Re.findall from_pattern code = []
  ∧ _extract_imports_regex code = ∅
  ∧ ∀ ast_parse, ast_parse code = raise SyntaxError →
                 _extract_imports ast_parse code = mret ∅.
Proof.
  intros Hc.
  assert (Hi : Re.findall import_pattern code = []).
  { apply (scan_without_literal "import"); [| done].
    unfold import_pattern. set_solver. }
  assert (Hf : Re.findall from_pattern code = []).
  { apply (scan_without_literal "import"); [| done].
    unfold from_pattern. set_solver. }
  split; [done |]. split; [done |]. split.
  - unfold _extract_imports_regex. rewrite Hi, Hf. simpl.
    by rewrite (left_id_L ∅ (∪)).
  - intros ast_parse Hp. by apply unmatched_cell_contributes_nothing.
Qed.

Lemma fallback_needs_import_keyword_witness :
  _extract_imports_regex "IMPORT os" = ∅.
Proof. apply (fallback_needs_import_keyword "IMPORT os"). reflexivity. Defined.















(** ** The environment configuration *)

Lemma environment_inner_loop (libs conda pip : list string) :
  foldl (λ '(conda_dependencies, pip_dependencies) lib,
           if conda_installed lib
           then (conda_dependencies ++ [lib], pip_dependencies)
           else (conda_dependencies, pip_dependencies ++ [lib]))
        (conda, pip) libs
  = (conda ++ filter (λ lib, conda_installed lib = true) libs,
     pip ++ filter (λ lib, conda_installed lib ≠ true) libs).
Proof.
  revert conda pip. induction libs as [|lib libs IH]; intros conda pip; simpl.
  - by rewrite !app_nil_r.
  - rewrite !filter_cons.
    destruct (conda_installed lib) eqn:Hc; rewrite IH.
    + rewrite decide_True, decide_False by (done || by intros []).
      by rewrite <- app_assoc.
    + rewrite decide_False, decide_True by done.
      by rewrite <- app_assoc.
Qed.

(** X21: the environment lists every library once per occurrence, in the order
    met: under the conda dependencies when its name is tensorflow, pytorch
    or cudatoolkit, under the pip entry otherwise; the pip entry is always
    there, last, also when it is empty. *)
Theorem environment_config_partition (dependencies : list (string * list string)) :
  let libs := flat_map snd dependencies in
  _create_environment_config dependencies
  = JObj [ ("name", JStr "ml-project-env");
           ("channels", JArr [JStr "conda-forge"; JStr "defaults"]);
           ("dependencies",
            JArr (map JStr (filter (λ lib, conda_installed lib = true) libs)
                  ++ [JObj [("pip",
                             JArr (map JStr
                                     (filter (λ lib, conda_installed lib ≠ true) libs)))]])) ]
  ∧ filter (λ lib, conda_installed lib = true) libs
    ++ filter (λ lib, conda_installed lib ≠ true) libs ≡ₚ libs
  ∧ Forall (λ lib, lib ∈ ["tensorflow"; "pytorch"; "cudatoolkit"])
           (filter (λ lib, conda_installed lib = true) libs).
Proof.
  intros libs.
  assert (Hloop : ∀ conda pip,
    foldl (λ acc '(category, libs),
             foldl (λ '(conda_dependencies, pip_dependencies) lib,
                      if conda_installed lib
                      then (conda_dependencies ++ [lib], pip_dependencies)
                      else (conda_dependencies, pip_dependencies ++ [lib]))
                   acc libs)
          (conda, pip) dependencies
    = (conda ++ filter (λ lib, conda_installed lib = true) (flat_map snd dependencies),
       pip ++ filter (λ lib, conda_installed lib ≠ true) (flat_map snd dependencies))).
  { induction dependencies as [|[category ls] deps IH]; intros conda pip; simpl.
    - by rewrite !app_nil_r.
    - rewrite environment_inner_loop, IH, !filter_app, !app_assoc. done. }
  split; [| split].
  - unfold _create_environment_config. by rewrite (Hloop [] []).
  - apply filter_app_complement.
  - apply Forall_forall. intros lib [Hc _]%list_elem_of_filter.
    unfold conda_installed in Hc. simpl in Hc.
    rewrite !orb_true_iff, !String.eqb_eq in Hc. rewrite !elem_of_cons.
    destruct Hc as [-> | [-> | [-> | ?]]]; auto. done.
Qed.

(** ** Deep update *)

Lemma deep_update_fold (items source : list (string * json)) :
  deep_update (JObj items) source = foldl deep_update_item source items.
Proof.
  revert source. induction items as [|[key value] rest IH]; intros source; [done |].
  simpl foldl. rewrite <- IH. reflexivity.
Qed.

Lemma dict_get_set_eq (k : string) (v : json) (d : list (string * json)) :
  dict_get k (dict_set k v d) = Some v.
Proof.
  induction d as [|[k' v'] d IH]; simpl.
  - by rewrite String.eqb_refl.
  - destruct (String.eqb k' k) eqn:Hk; simpl.
    + by rewrite String.eqb_refl.
    + by rewrite Hk.
Qed.

Lemma dict_get_set_ne (k k' : string) (v : json) (d : list (string * json)) :
  k ≠ k' → dict_get k (dict_set k' v d) = dict_get k d.
Proof.
  intros Hne. induction d as [|[k0 v0] d IH]; simpl.
  - apply String.eqb_neq in Hne. by rewrite String.eqb_sym, Hne.
  - destruct (String.eqb k0 k') eqn:Hk; simpl.
    + apply String.eqb_eq in Hk as ->.
      assert (Hn : String.eqb k' k = false)
        by (apply String.eqb_neq; congruence).
      by rewrite Hn.
    + by rewrite IH.
Qed.

Lemma dict_get_None (k : string) (d : list (string * json)) :
  dict_get k d = None ↔ k ∉ map fst d.
Proof.
  induction d as [|[k' v'] d IH]; simpl.
  - split; [intros _ H; by apply elem_of_nil in H | done].
  - rewrite not_elem_of_cons. destruct (String.eqb k' k) eqn:Hk.
    + apply String.eqb_eq in Hk as ->. split; [discriminate | by intros [? _]].
    + apply String.eqb_neq in Hk. rewrite IH. split; [| tauto].
      intros H. split; [congruence | done].
Qed.

Lemma dict_set_keys (k : string) (v : json) (d : list (string * json)) :
  map fst (dict_set k v d)
  = match dict_get k d with
    | Some _ => map fst d
    | None => map fst d ++ [k]
    end.
Proof.
  induction d as [|[k' v'] d IH]; simpl; [done |].
  destruct (String.eqb k' k) eqn:Hk; simpl.
  - apply String.eqb_eq in Hk as ->. done.
  - rewrite IH. by destruct (dict_get k d).
Qed.

Lemma deep_update_item_get_eq (source : list (string * json)) (k : string) (v : json) :
  dict_get k (deep_update_item source (k, v))
  = match v, dict_get k source with
    | JObj _, Some (JObj sub) => Some (JObj (deep_update v sub))
    | _, _ => Some v
    end.
Proof.
  unfold deep_update_item. simpl.
  destruct v; try apply dict_get_set_eq.
  destruct (dict_get k source) as [[]|]; apply dict_get_set_eq.
Qed.

Lemma deep_update_item_get_ne (source : list (string * json)) (k k' : string) (v : json) :
  k ≠ k' → dict_get k (deep_update_item source (k', v)) = dict_get k source.
Proof.
  intros Hne. unfold deep_update_item. simpl.
  destruct v; try by apply dict_get_set_ne.
  destruct (dict_get k' source) as [[]|]; by apply dict_get_set_ne.
Qed.

(** X22: looking a key up after a deep update: a key the update does not
    mention keeps its value; a key it maps to a dictionary, where the
    source has a dictionary too, gets the deep update of the two; any
    other key it mentions gets the value of the update. *)
Theorem deep_update_lookup (items source : list (string * json)) (k : string) :
  NoDup (map fst items) →
  dict_get k (deep_update (JObj items) source)
  = match dict_get k items with
    | None => dict_get k source
    | Some value =>
        match value, dict_get k source with
        | JObj _, Some (JObj sub) => Some (JObj (deep_update value sub))
        | _, _ => Some value
        end
    end.
Proof.
  rewrite deep_update_fold. revert source.
  induction items as [|[k0 v0] rest IH]; intros source Hnd; [done |].
  simpl in Hnd. apply NoDup_cons in Hnd as [Hk0 Hnd].
  simpl foldl. rewrite IH by done. simpl dict_get.
  destruct (String.eqb k0 k) eqn:Hk.
  - apply String.eqb_eq in Hk as ->.
    apply dict_get_None in Hk0. rewrite Hk0.
    apply deep_update_item_get_eq.
  - apply String.eqb_neq in Hk.
    by rewrite deep_update_item_get_ne by congruence.
Qed.

Lemma deep_update_lookup_witness :
  dict_get "project" (deep_update (JObj sample_updates) sample_config)
  = Some (JObj [("name", JStr "demo"); ("version", JStr "1.1.0")]).
Proof.
  rewrite (deep_update_lookup sample_updates sample_config "project").
  - reflexivity.
  - vm_compute. repeat constructor.
    + intros [[=] | H%elem_of_nil]%elem_of_cons. done.
    + by intros H%elem_of_nil.
Defined.

Lemma deep_update_item_keys (source : list (string * json)) (item : string * json) :
  map fst (deep_update_item source item)
  = match dict_get item.1 source with
    | Some _ => map fst source
    | None => map fst source ++ [item.1]
    end.
Proof.
  unfold deep_update_item. destruct item as [k v]. simpl.
  destruct v; try apply dict_set_keys.
  destruct (dict_get k source) as [[]|] eqn:Hg;
    rewrite dict_set_keys, Hg; done.
Qed.

(** X23: a deep update never drops or reorders a key: the keys of the source
    come first, in their order, followed by the new keys; the keys of the
    result are those of the source and of the update; distinct keys stay
    distinct. *)
Theorem deep_update_keys (items source : list (string * json)) :
  map fst source `prefix_of` map fst (deep_update (JObj items) source)
  ∧ (∀ k, k ∈ map fst (deep_update (JObj items) source)
          ↔ k ∈ map fst source ∨ k ∈ map fst items)
  ∧ (NoDup (map fst source) → NoDup (map fst (deep_update (JObj items) source))).
Proof.
  rewrite deep_update_fold. revert source.
  induction items as [|[k0 v0] rest IH]; intros source.
  - simpl. split; [done |]. split; [| done].
    intros k. split; [by left | intros [? | H]; [done | by apply elem_of_nil in H]].
  - simpl foldl. destruct (IH (deep_update_item source (k0, v0))) as (Hp & Hk & Hn).
    pose proof (deep_update_item_keys source (k0, v0)) as Hkeys. simpl in Hkeys.
    split; [| split].
    + etrans; [| exact Hp]. rewrite Hkeys.
      destruct (dict_get k0 source); [done | by apply prefix_app_r].
    + intros k. rewrite Hk, Hkeys. simpl. rewrite elem_of_cons.
      destruct (dict_get k0 source) as [v|] eqn:Hg.
      * assert (Hin : k0 ∈ map fst source).
        { destruct (decide (k0 ∈ map fst source)) as [? | Hnot]; [done |].
          apply dict_get_None in Hnot. congruence. }
        split; [tauto |]. intros [? | [-> | ?]]; tauto.
      * rewrite elem_of_app, list_elem_of_singleton. tauto.
    + intros Hnd. apply Hn. rewrite Hkeys.
      destruct (dict_get k0 source) eqn:Hg; [done |].
      apply NoDup_app. split; [done |]. split; [| apply NoDup_singleton].
      intros k Hin ->%list_elem_of_singleton.
      apply dict_get_None in Hg. done.
Qed.

(** ** Indentation loses nothing *)

Lemma join_split (sep : ascii) (s : string) :
  join (String sep "") (split sep s) = s.
Proof.
  induction s as [|c s IH]; [done |]. simpl split.
  destruct (split_parts sep s) as [Hne _].
  destruct (split sep s) as [|h t] eqn:Hs; [done |].
  destruct (Ascii.eqb c sep) eqn:Hc.
  - apply Ascii.eqb_eq in Hc as ->.
    change (join (String sep "") ("" :: h :: t))
      with ("" +:+ String sep "" +:+ join (String sep "") (h :: t)).
    rewrite IH. reflexivity.
  - destruct t as [|t1 t'].
    + simpl in IH |- *. by rewrite IH.
    + change (join (String sep "") (String c h :: t1 :: t'))
        with (String c h +:+ String sep "" +:+ join (String sep "") (t1 :: t')).
      rewrite append_cons. f_equal. exact IH.
Qed.

(** X24: splitting a text into lines and joining them again gives the text
    back, and indentation can be undone: two sources with the same
    indented text are the same source. *)
Theorem indent_code_injective (a b : string) :
  indent_code a = indent_code b →
  a = b ∧ join NL (split nl a) = a.
Proof.
  intros H. split; [| apply join_split].
  assert (Hl : map (λ line, "    " +:+ line) (split nl a)
               = map (λ line, "    " +:+ line) (split nl b))
    by by rewrite <- !indent_code_lines, H.
  assert (Hs : split nl a = split nl b).
  { revert Hl. generalize (split nl a) (split nl b).
    induction l as [|x l IH]; intros [|y l']; simpl; try done.
    intros [= Hx Hl]. f_equal; [exact Hx | by apply IH]. }
  by rewrite <- (join_split nl a), <- (join_split nl b), Hs.
Qed.

Lemma indent_code_injective_witness :
  join NL (split nl ("x = 1" +:+ NL +:+ NL +:+ "y = 2")) = "x = 1" +:+ NL +:+ NL +:+ "y = 2".
Proof.
  apply (indent_code_injective ("x = 1" +:+ NL +:+ NL +:+ "y = 2")
           ("x = 1" +:+ NL +:+ NL +:+ "y = 2") eq_refl).
Defined.
